(** * Telugu daily horoscope mailer: the prediction core

    A shallow embedding of [horoscope_mailer.py]: the panchang calculator,
    the dynamic prediction engine and the sign-from-birth-date lookup,
    together with the parts of the Python runtime they call
    ([datetime.date], [hashlib.md5], list and dict access, [str.format]).

    Python's exceptions ([KeyError], [IndexError], [ValueError]) are the
    [None] of the option monad; Python's dicts are finite maps, except
    where the insertion order is read, and Python's floats are binary64
    primitive floats. *)

From Stdlib Require Import ZArith String Ascii List Lia Bool.
From Stdlib Require Import PrimFloat Uint63 DecimalString QArith.
From stdpp Require Import gmap strings.

Local Open Scope string_scope.
Local Open Scope list_scope.
Local Open Scope Z_scope.

(** ** Python built-ins used by the program *)

Module Py.

(** [l[i]]: negative indices count from the end, anything else out of
    range raises [IndexError]. *)
Definition getitem {A} (l : list A) (i : Z) : option A :=
  let n := Z.of_nat (length l) in
  if (0 <=? i) && (i <? n) then l !! Z.to_nat i
  else if (- n <=? i) && (i <? 0) then l !! Z.to_nat (n + i)
  else None.

(** [l[:k]] for a non-negative literal [k]. *)
Definition slice_to {A} (k : nat) (l : list A) : list A := take k l.

(** [l.index(x)]: position of the first occurrence, [ValueError] if none. *)
Fixpoint index `{EqDecision A} (l : list A) (x : A) : option Z :=
  match l with
  | [] => None
  | y :: l' => if decide (y = x) then Some 0 else Z.succ <$> index l' x
  end.

(** [x in l] on a list. *)
Definition contains `{EqDecision A} (x : A) (l : list A) : bool :=
  bool_decide (x ∈ l).

(** [sub in s] on strings. *)
Fixpoint str_contains (sub s : string) : bool :=
  String.prefix sub s ||
  match s with
  | EmptyString => false
  | String _ s' => str_contains sub s'
  end.

(** [str(n)] for an integer. *)
Definition str (n : Z) : string := NilZero.string_of_int (Z.to_int n).

(** Zero padding of the decimal form of a non-negative integer, as
    ["%0wd" % n] does. *)
Definition zfill (w : nat) (s : string) : string :=
  String.concat "" (repeat "0" (w - String.length s)) +:+ s.

(** [sep.join(parts)]. *)
Definition join (sep : string) (parts : list string) : string :=
  String.concat sep parts.

(** [template.format(area=v)] for a template whose only replacement
    field is [{area}]: [skip] counts the characters of a field still to
    be dropped. *)
Fixpoint format_area_from (skip : nat) (v template : string) : string :=
  match template with
  | EmptyString => EmptyString
  | String c rest =>
      match skip with
      | S k => format_area_from k v rest
      | O =>
          if String.prefix "{area}" template
          then v +:+ format_area_from 5 v rest
          else String c (format_area_from 0 v rest)
      end
  end.

Definition format_area (template v : string) : string :=
  format_area_from 0 v template.

(** One hexadecimal digit of [int(s, 16)]. *)
Definition hex_digit (c : ascii) : option Z :=
  let n := Z.of_N (N_of_ascii c) in
  if (48 <=? n) && (n <=? 57) then Some (n - 48)
  else if (97 <=? n) && (n <=? 102) then Some (n - 87)
  else if (65 <=? n) && (n <=? 70) then Some (n - 55)
  else None.

Fixpoint int16_from (acc : Z) (s : string) : option Z :=
  match s with
  | EmptyString => Some acc
  | String c s' => d ← hex_digit c; int16_from (16 * acc + d) s'
  end.

(** [int(s, 16)] on a string of hexadecimal digits; the empty string
    and any other character raise [ValueError]. *)
Definition int16 (s : string) : option Z :=
  match s with
  | EmptyString => None
  | _ => int16_from 0 s
  end.

(** [s.encode()] on a string held as its UTF-8 bytes. *)
Definition encode (s : string) : list Z :=
  (fun c => Z.of_N (N_of_ascii c)) <$> list_ascii_of_string s.

(** [a % b]: the result has the sign of [b]; [ZeroDivisionError] on 0. *)
Definition mod_ (a b : Z) : option Z :=
  if b =? 0 then None else Some (a mod b).

(** [a / b] on two integers small enough to be exact as floats. *)
Definition truediv (a b : Z) : float :=
  PrimFloat.div (PrimFloat.of_uint63 (Uint63.of_Z a))
                (PrimFloat.of_uint63 (Uint63.of_Z b)).

End Py.

(** ** [datetime.date] *)

Module Datetime.

Definition is_leap (year : Z) : bool :=
  (year mod 4 =? 0) && (negb (year mod 100 =? 0) || (year mod 400 =? 0)).

Definition DAYS_IN_MONTH : list Z :=
  [-1; 31; 28; 31; 30; 31; 30; 31; 31; 30; 31; 30; 31].

Definition DAYS_BEFORE_MONTH : list Z :=
  [-1; 0; 31; 59; 90; 120; 151; 181; 212; 243; 273; 304; 334].

Definition days_in_month (year month : Z) : Z :=
  if (month =? 2) && is_leap year then 29
  else nth (Z.to_nat month) DAYS_IN_MONTH 0.

Definition days_before_year (year : Z) : Z :=
  let y := year - 1 in
  y * 365 + y / 4 - y / 100 + y / 400.

Definition days_before_month (year month : Z) : Z :=
  nth (Z.to_nat month) DAYS_BEFORE_MONTH 0
  + (if (2 <? month) && is_leap year then 1 else 0).

Definition ymd2ord (year month day : Z) : Z :=
  days_before_year year + days_before_month year month + day.

(** The check of the [date] constructor: years 1 to 9999. *)
Definition check_date_fields (year month day : Z) : bool :=
  (1 <=? year) && (year <=? 9999) &&
  (1 <=? month) && (month <=? 12) &&
  (1 <=? day) && (day <=? days_in_month year month).

(** A date object: the constructor refuses fields that fail the check,
    so every date carries the evidence that it passed. *)
Record date := mkdate {
  year : Z;
  month : Z;
  day : Z;
  date_ok : check_date_fields year month day = true
}.

Definition toordinal (d : date) : Z := ymd2ord (year d) (month d) (day d).

(** Monday is 0, Sunday is 6. *)
Definition weekday (d : date) : Z := (toordinal d + 6) mod 7.

(** [(d1 - d2).days] *)
Definition days_between (d1 d2 : date) : Z := toordinal d1 - toordinal d2.

(** [str(d)], the ISO form [YYYY-MM-DD]. *)
Definition isoformat (d : date) : string :=
  Py.zfill 4 (Py.str (year d)) +:+ "-" +:+
  Py.zfill 2 (Py.str (month d)) +:+ "-" +:+
  Py.zfill 2 (Py.str (day d)).

End Datetime.

(** ** [hashlib.md5] (RFC 1321) on 32-bit words held in [Z] *)

Module Hashlib.

Definition mask32 : Z := 0xffffffff.

Definition add32 (a b : Z) : Z := (a + b) mod 2 ^ 32.

Definition not32 (a : Z) : Z := Z.lxor a mask32.

Definition rotl32 (x c : Z) : Z :=
  Z.lor (Z.land (Z.shiftl x c) mask32) (Z.shiftr x (32 - c)).

Definition shifts : list Z :=
  [7; 12; 17; 22; 7; 12; 17; 22; 7; 12; 17; 22; 7; 12; 17; 22;
   5; 9; 14; 20; 5; 9; 14; 20; 5; 9; 14; 20; 5; 9; 14; 20;
   4; 11; 16; 23; 4; 11; 16; 23; 4; 11; 16; 23; 4; 11; 16; 23;
   6; 10; 15; 21; 6; 10; 15; 21; 6; 10; 15; 21; 6; 10; 15; 21].

Definition sines : list Z :=
  [0xd76aa478; 0xe8c7b756; 0x242070db; 0xc1bdceee;
   0xf57c0faf; 0x4787c62a; 0xa8304613; 0xfd469501;
   0x698098d8; 0x8b44f7af; 0xffff5bb1; 0x895cd7be;
   0x6b901122; 0xfd987193; 0xa679438e; 0x49b40821;
   0xf61e2562; 0xc040b340; 0x265e5a51; 0xe9b6c7aa;
   0xd62f105d; 0x02441453; 0xd8a1e681; 0xe7d3fbc8;
   0x21e1cde6; 0xc33707d6; 0xf4d50d87; 0x455a14ed;
   0xa9e3e905; 0xfcefa3f8; 0x676f02d9; 0x8d2a4c8a;
   0xfffa3942; 0x8771f681; 0x6d9d6122; 0xfde5380c;
   0xa4beea44; 0x4bdecfa9; 0xf6bb4b60; 0xbebfbc70;
   0x289b7ec6; 0xeaa127fa; 0xd4ef3085; 0x04881d05;
   0xd9d4d039; 0xe6db99e5; 0x1fa27cf8; 0xc4ac5665;
   0xf4292244; 0x432aff97; 0xab9423a7; 0xfc93a039;
   0x655b59c3; 0x8f0ccc92; 0xffeff47d; 0x85845dd1;
   0x6fa87e4f; 0xfe2ce6e0; 0xa3014314; 0x4e0811a1;
   0xf7537e82; 0xbd3af235; 0x2ad7d2bb; 0xeb86d391].

(** The four chaining words. *)
Record state := mkstate { sa : Z; sb : Z; sc : Z; sd : Z }.

Definition init_state : state :=
  mkstate 0x67452301 0xefcdab89 0x98badcfe 0x10325476.

(** Little-endian bytes of a word, and back. *)
Fixpoint le_bytes (n : nat) (w : Z) : list Z :=
  match n with
  | O => []
  | S n' => w mod 256 :: le_bytes n' (w / 256)
  end.

Fixpoint le_word (bs : list Z) : Z :=
  match bs with
  | [] => 0
  | b :: bs' => b + 256 * le_word bs'
  end.

(** Padding: a one bit, zeros up to 56 modulo 64, the bit length. *)
Definition pad (msg : list Z) : list Z :=
  let len := Z.of_nat (length msg) in
  let zeros := Z.to_nat ((55 - len) mod 64) in
  msg ++ [128] ++ repeat 0 zeros ++ le_bytes 8 ((8 * len) mod 2 ^ 64).

Fixpoint words (n : nat) (bs : list Z) : list Z :=
  match n with
  | O => []
  | S n' => le_word (take 4 bs) :: words n' (drop 4 bs)
  end.

Fixpoint blocks (n : nat) (bs : list Z) : list (list Z) :=
  match n with
  | O => []
  | S n' => words 16 (take 64 bs) :: blocks n' (drop 64 bs)
  end.

(** One of the 64 operations on a block [m]. *)
Definition step (m : list Z) (st : state) (i : nat) : state :=
  let '(mkstate a b c d) := st in
  let zi := Z.of_nat i in
  let '(f, g) :=
    if zi <? 16 then
      (Z.lor (Z.land b c) (Z.land (not32 b) d), zi)
    else if zi <? 32 then
      (Z.lor (Z.land d b) (Z.land (not32 d) c), (5 * zi + 1) mod 16)
    else if zi <? 48 then
      (Z.lxor b (Z.lxor c d), (3 * zi + 5) mod 16)
    else
      (Z.lxor c (Z.lor b (not32 d)), (7 * zi) mod 16) in
  let f' := add32 (add32 (add32 f a) (nth i sines 0)) (nth (Z.to_nat g) m 0) in
  mkstate d (add32 b (rotl32 f' (nth i shifts 0))) b c.

Definition compress (st : state) (m : list Z) : state :=
  let st' := fold_left (step m) (seq 0 64) st in
  mkstate (add32 (sa st) (sa st')) (add32 (sb st) (sb st'))
          (add32 (sc st) (sc st')) (add32 (sd st) (sd st')).

(** [md5(msg).digest()]: sixteen bytes. *)
Definition digest (msg : list Z) : list Z :=
  let p := pad msg in
  let st := fold_left compress (blocks (length p / 64) p) init_state in
  le_bytes 4 (sa st) ++ le_bytes 4 (sb st) ++
  le_bytes 4 (sc st) ++ le_bytes 4 (sd st).

Definition hex_char (n : Z) : ascii :=
  if n <? 10 then ascii_of_N (Z.to_N (48 + n))
  else ascii_of_N (Z.to_N (87 + n)).

Definition hex_byte (b : Z) (rest : string) : string :=
  String (hex_char (b / 16)) (String (hex_char (b mod 16)) rest).

(** [md5(msg).hexdigest()]: two lower-case digits per byte. *)
Definition hexdigest (msg : list Z) : string :=
  fold_right hex_byte EmptyString (digest msg).

End Hashlib.

(** ** The program *)

(** [int(hashlib.md5(str(date).encode()).hexdigest()[:8], 16)], the
    expression both [generate_daily_prediction] and
    [generate_lucky_elements] evaluate. *)
Definition date_seed (date : Datetime.date) : option Z :=
  Py.int16 (String.substring 0 8
    (Hashlib.hexdigest (Py.encode (Datetime.isoformat date)))).

(** *** class PanchangCalculator *)

Record PanchangCalculator := {
  tithis : list string;
  nakshatras : list string;
  weekdays_telugu : gmap Z string
}.

Definition PanchangCalculator_init : PanchangCalculator := {|
  tithis := [
    "పాడ్యమి"; "విదియ"; "తదియ"; "చవితి"; "పంచమి";
    "షష్టి"; "సప్తమి"; "అష్టమి"; "నవమి"; "దశమి";
    "ఏకాదశి"; "ద్వాదశి"; "త్రయోదశి"; "చతుర్దశి"; "పౌర్ణమి/అమావాస్య"
  ];
  nakshatras := [
    "అశ్విని"; "భరణి"; "కృత్తిక"; "రోహిణి"; "మృగశిర";
    "ఆరుద్ర"; "పునర్వసు"; "పుష్యమి"; "ఆశ్లేష"; "మఖ";
    "పుబ్బ"; "ఉత్తర"; "హస్త"; "చిత్త"; "స్వాతి";
    "విశాఖ"; "అనూరాధ"; "జ్యేష్ఠ"; "మూల"; "పూర్వాషాఢ";
    "ఉత్తరాషాఢ"; "శ్రవణం"; "ధనిష్ఠ"; "శతభిషం"; "పూర్వాభాద్ర";
    "ఉత్తరాభాద్ర"; "రేవతి"
  ];
  weekdays_telugu := list_to_map [
    (0, "సోమవారం"); (1, "మంగళవారం"); (2, "బుధవారం");
    (3, "గురువారం"); (4, "శుక్రవారం"); (5, "శనివారం"); (6, "ఆదివారం")
  ]
|}.

(** The reference new moon (Amavasya) and the epoch of the asterism count. *)
Definition reference_date : Datetime.date := Datetime.mkdate 2024 1 11 eq_refl.
Definition epoch_date : Datetime.date := Datetime.mkdate 2000 1 1 eq_refl.

(** Lines 44 to 46 and 49: the day of the lunar month and the index of
    its name. *)
Definition lunar_day (date : Datetime.date) : Z :=
  let days_diff := Datetime.days_between date reference_date in
  days_diff mod 30.

Definition tithi_index (date : Datetime.date) : Z := lunar_day date mod 15.

Definition get_tithi (self : PanchangCalculator) (date : Datetime.date)
  : option string :=
  let lunar_day := lunar_day date in
  let paksha := if lunar_day <? 15 then "శుక్ల పక్షం" else "కృష్ణ పక్షం" in
  let tithi_index := tithi_index date in
  name ← Py.getitem (tithis self) tithi_index;
  Some (paksha +:+ " " +:+ name).

(** Lines 55 and 56: the index of the asterism. *)
Definition nakshatra_index (date : Datetime.date) : Z :=
  let days_since_epoch := Datetime.days_between date epoch_date in
  (days_since_epoch * 13) mod 27.

Definition get_nakshatra (self : PanchangCalculator) (date : Datetime.date)
  : option string :=
  Py.getitem (nakshatras self) (nakshatra_index date).

#[warning="-inexact-float"]
Definition get_moon_phase (self : PanchangCalculator) (date : Datetime.date)
  : string :=
  let days_diff := Datetime.days_between date reference_date in
  let phase := Py.truediv (days_diff mod 30) 30 in
  if PrimFloat.ltb phase 0.03 || PrimFloat.ltb 0.97 phase then
    "అమావాస్య (New Moon)"
  else if PrimFloat.ltb 0.22 phase && PrimFloat.ltb phase 0.28 then
    "పూర్తి చంద్రుడు (Full Moon)"
  else if PrimFloat.ltb phase 0.25 then
    "వర్ధమాన చంద్రుడు (Waxing)"
  else
    "క్షీణించు చంద్రుడు (Waning)".

Definition get_weekday_telugu (self : PanchangCalculator)
  (date : Datetime.date) : option string :=
  weekdays_telugu self !! Datetime.weekday date.

(** *** class DynamicPredictionEngine *)

Record RashiInfo := {
  element : string;
  lord : string;
  nature : string;
  favorable_days : list Z;
  areas : list string
}.

Record DynamicPredictionEngine := {
  panchang : PanchangCalculator;
  rashi_base : gmap string RashiInfo;
  prediction_templates : gmap string (list string)
}.

Definition DynamicPredictionEngine_init : DynamicPredictionEngine := {|
  panchang := PanchangCalculator_init;
  rashi_base := list_to_map [
    ("వృషభం", {| element := "earth"; lord := "venus"; nature := "fixed";
        favorable_days := [4; 5];
        areas := ["finance"; "family"; "comfort"; "relationships"] |});
    ("సింహం", {| element := "fire"; lord := "sun"; nature := "fixed";
        favorable_days := [6];
        areas := ["leadership"; "career"; "recognition"; "authority"] |});
    ("ధనుస్సు", {| element := "fire"; lord := "jupiter"; nature := "dual";
        favorable_days := [3];
        areas := ["education"; "travel"; "spirituality"; "fortune"] |});
    ("మేషం", {| element := "fire"; lord := "mars"; nature := "movable";
        favorable_days := [1; 6];
        areas := ["action"; "courage"; "initiative"; "competition"] |});
    ("మిథునం", {| element := "air"; lord := "mercury"; nature := "dual";
        favorable_days := [2];
        areas := ["communication"; "learning"; "networking"; "versatility"] |});
    ("కర్కాటకం", {| element := "water"; lord := "moon"; nature := "movable";
        favorable_days := [0];
        areas := ["emotions"; "home"; "family"; "nurturing"] |});
    ("కన్య", {| element := "earth"; lord := "mercury"; nature := "dual";
        favorable_days := [2];
        areas := ["service"; "health"; "analysis"; "perfection"] |});
    ("తుల", {| element := "air"; lord := "venus"; nature := "movable";
        favorable_days := [4];
        areas := ["relationships"; "balance"; "art"; "harmony"] |});
    ("వృశ్చికం", {| element := "water"; lord := "mars"; nature := "fixed";
        favorable_days := [1];
        areas := ["transformation"; "intensity"; "secrets"; "power"] |});
    ("మకరం", {| element := "earth"; lord := "saturn"; nature := "movable";
        favorable_days := [5];
        areas := ["discipline"; "career"; "ambition"; "responsibility"] |});
    ("కుంభం", {| element := "air"; lord := "saturn"; nature := "fixed";
        favorable_days := [5];
        areas := ["innovation"; "social"; "freedom"; "uniqueness"] |});
    ("మీనం", {| element := "water"; lord := "jupiter"; nature := "dual";
        favorable_days := [3];
        areas := ["spirituality"; "compassion"; "intuition"; "dreams"] |})
  ];
  prediction_templates := list_to_map [
    ("favorable", [
      "ఈరోజు మీకు అనుకూలమైన రోజు. {area}లో మంచి పురోగతి ఉంటుంది.";
      "{area} విషయాలలో విజయం సాధించే అవకాశాలు ఉన్నాయి.";
      "ఈరోజు {area}కు సంబంధించిన కార్యక్రమాలు శుభఫలితాలిస్తాయి."
    ]);
    ("neutral", [
      "{area} విషయాలలో సాధారణ పరిస్థితులు ఉంటాయి. జాగ్రత్తగా ముందుకు సాగండి.";
      "ఈరోజు {area}లో ఓపిక పాటించండి. మంచి ఫలితాలు రావొచ్చు."
    ]);
    ("challenging", [
      "{area} విషయాలలో జాగ్రత్త అవసరం. త్వరపడకుండా నిర్ణయాలు తీసుకోండి.";
      "ఈరోజు {area}లో అడ్డంకులు ఎదురవొచ్చు. ధైర్యంగా ఎదుర్కోండి."
    ])
  ]
|}.

(** The dict literals local to the methods. *)

Definition weekday_openings : gmap Z string := list_to_map [
  (0, "సోమవారం చంద్రుని ప్రభావంతో మీ మనస్సు స్థిరంగా ఉంటుంది.");
  (1, "మంగళవారం మంగళుని శక్తితో మీకు ధైర్యం, శక్తి లభిస్తాయి.");
  (2, "బుధవారం బుధుని ఆశీస్సుతో మీ కమ్యూనికేషన్ నైపుణ్యాలు మెరుగుపడతాయి.");
  (3, "గురువారం బృహస్పతి దేవుని కృపతో జ్ఞానం, అదృష్టం పెరుగుతాయి.");
  (4, "శుక్రవారం శుక్రుని ప్రభావంతో సంబంధాలు, సౌందర్యం పెరుగుతాయి.");
  (5, "శనివారం శని దేవుని ప్రభావంతో కష్టపడి పనిచేయండి.");
  (6, "ఆదివారం సూర్యదేవుని తేజస్సుతో మీ వ్యక్తిత్వం ప్రకాశిస్తుంది.")
].

Definition area_telugu_table : gmap string string := list_to_map [
  ("finance", "ఆర్థిక"); ("family", "కుటుంబ"); ("career", "వృత్తి");
  ("education", "విద్యా"); ("health", "ఆరోగ్య"); ("relationships", "సంబంధ");
  ("leadership", "నాయకత్వ"); ("spirituality", "ఆధ్యాత్మిక");
  ("travel", "ప్రయాణ"); ("communication", "సంభాషణ");
  ("action", "కార్య"); ("service", "సేవా"); ("balance", "సమతుల్యత");
  ("transformation", "పరివర్తన"); ("discipline", "క్రమశిక్షణ");
  ("innovation", "ఆవిష్కరణ"); ("compassion", "కరుణ")
].

Definition nakshatra_effects : gmap string string := list_to_map [
  ("అశ్విని", "వేగవంతమైన పురోగతి");
  ("రోహిణి", "స్థిరత్వం మరియు వృద్ధి");
  ("పుష్యమి", "పోషణ మరియు శ్రేయస్సు");
  ("మఖ", "గౌరవం మరియు అధికారం");
  ("హస్త", "నైపుణ్యం మరియు సృజనాత్మకత");
  ("స్వాతి", "స్వతంత్రత మరియు సానుకూలత");
  ("అనూరాధ", "స్నేహం మరియు సహకారం");
  ("మూల", "పరివర్తన మరియు పునాదులు");
  ("శ్రవణం", "జ్ఞానం మరియు అవగాహన");
  ("శతభిషం", "వైద్యం మరియు రహస్యాలు");
  ("రేవతి", "కరుణ మరియు పూర్ణత్వం")
].

Definition weekday_remedies : gmap Z (list string) := list_to_map [
  (0, ["సోమవారం శివుడిని పూజించండి"; "పాల దానం చేయండి"; "తెల్ల వస్తువులు ధరించండి"]);
  (1, ["మంగళవారం హనుమాన్ జీ పూజ"; "ఎరుపు గింజలు దానం"; "హనుమాన్ చాలీసా పారాయణ"]);
  (2, ["బుధవారం విష్ణు మూర్తిని పూజించండి"; "పచ్చి మిరప దానం"; "విద్యార్థులకు సహాయం"]);
  (3, ["గురువారం బృహస్పతి దేవుడిని పూజించండి"; "పసుపు దానం"; "గురువులను గౌరవించండి"]);
  (4, ["శుక్రవారం మహాలక్ష్మి పూజ"; "తేనె దానం"; "తెల్ల పూలు అర్పించండి"]);
  (5, ["శనివారం శని దేవుడిని నమస్కరించండి"; "నల్లగింజలు దానం"; "పేదలకు సహాయం"]);
  (6, ["ఆదివారం సూర్యుడికి అర్ఘ్యం"; "గోధుమలు దానం"; "పితృదేవతలకు ప్రార్థన"])
].

Definition rashi_remedies : gmap string string := list_to_map [
  ("వృషభం", "శుక్ర మంత్రం (ఓం శుక్రాయ నమః) జపించండి");
  ("సింహం", "గాయత్రీ మంత్రం పారాయణ చేయండి");
  ("ధనుస్సు", "విష్ణు సహస్రనామం చదవండి")
].

Definition fallback_remedy : string :=
  "ఈరోజు మీ ఇష్టదైవాన్ని ప్రార్థించండి - అడ్డంకులు తొలగిపోతాయి".

Definition rashi_colors : gmap string (list string) := list_to_map [
  ("వృషభం", ["తెలుపు"; "గులాబీ"; "ఆకుపచ్చ"]);
  ("సింహం", ["బంగారు"; "నారింజ"; "ఎరుపు"]);
  ("ధనుస్సు", ["పసుపు"; "నారింజ"; "ఊదా"]);
  ("మేషం", ["ఎరుపు"; "నారింజ"]);
  ("మిథునం", ["ఆకుపచ్చ"; "పసుపు"]);
  ("కర్కాటకం", ["తెలుపు"; "వెండి"]);
  ("కన్య", ["ఆకుపచ్చ"; "గోధుమ"]);
  ("తుల", ["గులాబీ"; "నీలం"]);
  ("వృశ్చికం", ["ఎరుపు"; "నలుపు"]);
  ("మకరం", ["నలుపు"; "గోధుమ"]);
  ("కుంభం", ["నీలం"; "వైలెట్"]);
  ("మీనం", ["పసుపు"; "సముద్ర ఆకుపచ్చ"])
].

Definition base_numbers : list Z := [1; 2; 3; 4; 5; 6; 7; 8; 9].

Definition time_slots : list string := [
  "ఉదయం 6:00 - 9:00";
  "ఉదయం 10:00 - 12:00";
  "మధ్యాహ్నం 12:00 - 3:00";
  "సాయంత్రం 4:00 - 6:00";
  "సాయంత్రం 6:00 - 8:00"
].

Definition directions : list string :=
  ["తూర్పు"; "పడమర"; "ఉత్తరం"; "దక్షిణం"; "ఈశాన్యం"].

(** The result dict of [generate_daily_prediction] and its parts. *)

Module Panchang.
Record t := mk {
  tithi : string;
  nakshatra : string;
  weekday : string;
  moon_phase : string
}.
End Panchang.

Record LuckyElements := {
  lucky_color : string;
  lucky_number : string;
  lucky_time : string;
  lucky_direction : string
}.

Module Prediction.
Record t := mk {
  prediction : string;
  panchang : Panchang.t;
  lucky_color : string;
  lucky_number : string;
  lucky_time : string;
  lucky_direction : string;
  remedies : list string;
  favorability : string
}.
End Prediction.

(** [generate_daily_remedies]: weekday remedies, then the sign's, then
    the one for a challenging day. *)
Definition generate_daily_remedies (self : DynamicPredictionEngine)
  (rashi : string) (weekday : Z) (tone : string) : option (list string) :=
  let remedies := [] in
  candidates ← weekday_remedies !! weekday;
  let remedies := remedies ++ Py.slice_to 2 candidates in
  let remedies :=
    match rashi_remedies !! rashi with
    | Some r => remedies ++ [r]
    | None => remedies
    end in
  let remedies :=
    if decide (tone = "challenging") then remedies ++ [fallback_remedy]
    else remedies in
  Some remedies.

Definition generate_lucky_elements (self : DynamicPredictionEngine)
  (rashi : string) (date : Datetime.date) (score : Z) : option LuckyElements :=
  date_seed ← date_seed date;
  let colors := default ["తెలుపు"] (rashi_colors !! rashi) in
  color_index ← Py.mod_ date_seed (Z.of_nat (length colors));
  lucky_color ← Py.getitem colors color_index;
  number ← Py.getitem base_numbers ((Datetime.day date + score) mod 9);
  let lucky_number := Py.str number in
  time_index ← Py.mod_ date_seed (Z.of_nat (length time_slots));
  lucky_time ← Py.getitem time_slots time_index;
  direction_index ← Py.mod_ date_seed (Z.of_nat (length directions));
  lucky_direction ← Py.getitem directions direction_index;
  Some {| lucky_color := lucky_color;
          lucky_number := lucky_number;
          lucky_time := lucky_time;
          lucky_direction := lucky_direction |}.

(** Lines 203 to 218: the favorability score, three additive terms. *)
Definition favorability_score_of (self : DynamicPredictionEngine)
  (rashi_info : RashiInfo) (weekday : Z) (date_seed : Z)
  (nakshatra : string) : option Z :=
  let favorability_score := 0 in
  let favorability_score :=
    if Py.contains weekday (favorable_days rashi_info)
    then favorability_score + 3 else favorability_score in
  let day_influence := date_seed mod 10 - 5 in
  let favorability_score := favorability_score + day_influence in
  nakshatra_index ← Py.index (nakshatras (panchang self)) nakshatra;
  let favorability_score :=
    if nakshatra_index mod 3 =? 0
    then favorability_score + 1 else favorability_score in
  Some favorability_score.

(** Lines 221 to 226. *)
Definition tone_of (favorability_score : Z) : string :=
  if 3 <=? favorability_score then "favorable"
  else if favorability_score <=? -2 then "challenging"
  else "neutral".

(** Line 299. *)
Definition favorability_label (favorability_score : Z) : string :=
  if 3 <=? favorability_score then "అనుకూలం"
  else if favorability_score <=? -2 then "జాగ్రత్త"
  else "సాధారణం".

(** The body of the loop over the first two areas. *)
Definition area_sentence (self : DynamicPredictionEngine) (tone : string)
  (date_seed : Z) (area : string) : option string :=
  let area_telugu := default area (area_telugu_table !! area) in
  templates ← prediction_templates self !! tone;
  template_index ← Py.mod_ date_seed (Z.of_nat (length templates));
  template ← Py.getitem templates template_index;
  Some (Py.format_area template area_telugu).

(** Lines 228 to 281: the prediction text. *)
Definition build_prediction (self : DynamicPredictionEngine)
  (rashi_info : RashiInfo) (weekday : Z) (tone : string) (date_seed : Z)
  (nakshatra moon_phase : string) : option string :=
  opening ← weekday_openings !! weekday;
  let prediction_parts := [opening] in
  sentences ← mapM (area_sentence self tone date_seed)
                   (Py.slice_to 2 (areas rashi_info));
  let prediction_parts := prediction_parts ++ sentences in
  let prediction_parts :=
    match nakshatra_effects !! nakshatra with
    | Some effect =>
        prediction_parts ++
          [nakshatra +:+ " నక్షత్రం " +:+ effect +:+ " తెస్తుంది."]
    | None => prediction_parts
    end in
  let prediction_parts :=
    if Py.str_contains "పూర్తి చంద్రుడు" moon_phase then
      prediction_parts ++
        ["పౌర్ణమి యొక్క ప్రభావం మీ భావోద్వేగాలను బలపరుస్తుంది."]
    else if Py.str_contains "అమావాస్య" moon_phase then
      prediction_parts ++ ["అమావాస్య సమయం కొత్త ప్రారంభాలకు శుభం."]
    else prediction_parts in
  Some (Py.join " " prediction_parts).

Definition generate_daily_prediction (self : DynamicPredictionEngine)
  (rashi : string) (date : Datetime.date) : option Prediction.t :=
  tithi ← get_tithi (panchang self) date;
  nakshatra ← get_nakshatra (panchang self) date;
  let weekday := Datetime.weekday date in
  weekday_telugu ← get_weekday_telugu (panchang self) date;
  let moon_phase := get_moon_phase (panchang self) date in
  fallback_info ← rashi_base self !! "మేషం";
  let rashi_info := default fallback_info (rashi_base self !! rashi) in
  date_seed ← date_seed date;
  favorability_score ←
    favorability_score_of self rashi_info weekday date_seed nakshatra;
  let tone := tone_of favorability_score in
  full_prediction ←
    build_prediction self rashi_info weekday tone date_seed
                     nakshatra moon_phase;
  remedies ← generate_daily_remedies self rashi weekday tone;
  lucky_data ← generate_lucky_elements self rashi date favorability_score;
  Some {| Prediction.prediction := full_prediction;
          Prediction.panchang :=
            {| Panchang.tithi := tithi;
               Panchang.nakshatra := nakshatra;
               Panchang.weekday := weekday_telugu;
               Panchang.moon_phase := moon_phase |};
          Prediction.lucky_color := lucky_color lucky_data;
          Prediction.lucky_number := lucky_number lucky_data;
          Prediction.lucky_time := lucky_time lucky_data;
          Prediction.lucky_direction := lucky_direction lucky_data;
          Prediction.remedies := remedies;
          Prediction.favorability := favorability_label favorability_score |}.

(** The score [generate_daily_prediction] computes for a sign and a date. *)
Definition favorability_score (self : DynamicPredictionEngine)
  (rashi : string) (date : Datetime.date) : option Z :=
  nakshatra ← get_nakshatra (panchang self) date;
  fallback_info ← rashi_base self !! "మేషం";
  let rashi_info := default fallback_info (rashi_base self !! rashi) in
  date_seed ← date_seed date;
  favorability_score_of self rashi_info (Datetime.weekday date) date_seed
                        nakshatra.

(** *** class TeluguHoroscopeSystem *)

(** [rashi_mapping], in the order the dict literal lists it. *)
Definition rashi_mapping : list (string * string) := [
  ("మేషం", "Aries"); ("వృషభం", "Taurus"); ("మిథునం", "Gemini");
  ("కర్కాటకం", "Cancer"); ("సింహం", "Leo"); ("కన్య", "Virgo");
  ("తుల", "Libra"); ("వృశ్చికం", "Scorpio"); ("ధనుస్సు", "Sagittarius");
  ("మకరం", "Capricorn"); ("కుంభం", "Aquarius"); ("మీనం", "Pisces")
].

Definition calculate_rashi_from_dob (dob : Datetime.date) : string :=
  let month := Datetime.month dob in
  let day := Datetime.day dob in
  if (month =? 3) && (21 <=? day) || (month =? 4) && (day <=? 19) then "మేషం"
  else if (month =? 4) && (20 <=? day) || (month =? 5) && (day <=? 20) then "వృషభం"
  else if (month =? 5) && (21 <=? day) || (month =? 6) && (day <=? 20) then "మిథునం"
  else if (month =? 6) && (21 <=? day) || (month =? 7) && (day <=? 22) then "కర్కాటకం"
  else if (month =? 7) && (23 <=? day) || (month =? 8) && (day <=? 22) then "సింహం"
  else if (month =? 8) && (23 <=? day) || (month =? 9) && (day <=? 22) then "కన్య"
  else if (month =? 9) && (23 <=? day) || (month =? 10) && (day <=? 22) then "తుల"
  else if (month =? 10) && (23 <=? day) || (month =? 11) && (day <=? 21) then "వృశ్చికం"
  else if (month =? 11) && (22 <=? day) || (month =? 12) && (day <=? 21) then "ధనుస్సు"
  else if (month =? 12) && (22 <=? day) || (month =? 1) && (day <=? 19) then "మకరం"
  else if (month =? 1) && (20 <=? day) || (month =? 2) && (day <=? 18) then "కుంభం"
  else "మీనం".

(** The signs [send_daily_horoscopes] accepts: the keys of [rashi_mapping]. *)
Definition recognized (rashi : string) : Prop := rashi ∈ rashi_mapping.*1.

(** The sign after [rashi] in the order of [rashi_mapping], the first
    one after the last. *)
Definition next_sign (rashi : string) : option string :=
  i ← Py.index (rashi_mapping.*1) rashi;
  rashi_mapping.*1 !! Z.to_nat ((i + 1) mod 12).

(** ** Auxiliary definitions for the statements *)

(** The entry of [rashi_base] that [generate_daily_prediction] falls back
    to when the sign is not a key. *)
Definition aries_info : RashiInfo :=
  {| element := "fire"; lord := "mars"; nature := "movable";
     favorable_days := [1; 6];
     areas := ["action"; "courage"; "initiative"; "competition"] |}.

(** The result assembled from the values of the steps. *)
Definition assemble (tithi nakshatra weekday_telugu moon_phase : string)
  (score : Z) (full_prediction : string) (remedies : list string)
  (lucky : LuckyElements) : Prediction.t :=
  {| Prediction.prediction := full_prediction;
     Prediction.panchang :=
       {| Panchang.tithi := tithi;
          Panchang.nakshatra := nakshatra;
          Panchang.weekday := weekday_telugu;
          Panchang.moon_phase := moon_phase |};
     Prediction.lucky_color := lucky_color lucky;
     Prediction.lucky_number := lucky_number lucky;
     Prediction.lucky_time := lucky_time lucky;
     Prediction.lucky_direction := lucky_direction lucky;
     Prediction.remedies := remedies;
     Prediction.favorability := favorability_label score |}.

(** Two invocations in sequence on the same engine object. *)
Definition generate_twice (self : DynamicPredictionEngine) (rashi : string)
  (date : Datetime.date) : option (Prediction.t * Prediction.t) :=
  first ← generate_daily_prediction self rashi date;
  second ← generate_daily_prediction self rashi date;
  Some (first, second).

(** A result with its lucky color replaced. *)
Definition with_lucky_color (r : Prediction.t) (color : string)
  : Prediction.t :=
  {| Prediction.prediction := Prediction.prediction r;
     Prediction.panchang := Prediction.panchang r;
     Prediction.lucky_color := color;
     Prediction.lucky_number := Prediction.lucky_number r;
     Prediction.lucky_time := Prediction.lucky_time r;
     Prediction.lucky_direction := Prediction.lucky_direction r;
     Prediction.remedies := Prediction.remedies r;
     Prediction.favorability := Prediction.favorability r |}.

(** The label of [get_tithi] as a function of the day of the lunar month. *)
Definition tithi_of_lunar_day (self : PanchangCalculator) (lunar_day : Z)
  : option string :=
  let paksha := if lunar_day <? 15 then "శుక్ల పక్షం" else "కృష్ణ పక్షం" in
  name ← Py.getitem (tithis self) (lunar_day mod 15);
  Some (paksha +:+ " " +:+ name).

(** *** The batch: [generate_email_body] and [send_daily_horoscopes] *)

(** The exceptions the batch can meet. *)
Inductive exn : Type :=
| KeyError
| TypeError
| AttributeError
| UnicodeEncodeError
| OtherError.

(** Raising and sequencing in code that can raise. *)
Definition and_then {A B : Type} (m : exn + A) (f : A -> exn + B) : exn + B :=
  match m with
  | inl e => inl e
  | inr x => f x
  end.

(** The values [json.load] returns. *)
Module Json.

#[warning="-register-all"]
Inductive t : Type :=
| JNull
| JBool (b : bool)
| JInt (n : Z)
| JFloat (x : float)
| JStr (s : string)
| JList (items : list t)
| JObj (fields : gmap string t).

(** [v[key]] with a string key: only a dict can be indexed by a string. *)
Definition subscript (v : t) (key : string) : exn + t :=
  match v with
  | JObj fields =>
      match fields !! key with
      | Some x => inr x
      | None => inl KeyError
      end
  | _ => inl TypeError
  end.

(** [v.get(key, fallback)]: only a dict has the method. *)
Definition get (v : t) (key : string) (fallback : t) : exn + t :=
  match v with
  | JObj fields => inr (default fallback (fields !! key))
  | _ => inl AttributeError
  end.

(** [v in d] for a dict [d] with string keys, returning the key found:
    lists and dicts cannot be hashed, and no other value equals a string. *)
Definition find_key (v : t) (keys : list string) : exn + option string :=
  match v with
  | JStr s => inr (if bool_decide (s ∈ keys) then Some s else None)
  | JList _ | JObj _ => inl TypeError
  | _ => inr None
  end.

Definition is_object (v : t) : bool :=
  match v with
  | JObj _ => true
  | _ => false
  end.

End Json.

Module System.
Record t := mk {
  prediction_engine : DynamicPredictionEngine;
  panchang : PanchangCalculator;
  rashi_mapping : list (string * string)
}.
End System.

Definition TeluguHoroscopeSystem_init : System.t :=
  {| System.prediction_engine := DynamicPredictionEngine_init;
     System.panchang := PanchangCalculator_init;
     System.rashi_mapping := rashi_mapping |}.

Section Mailer.

(** The state of the world outside the program: the mail server and
    what it has been handed. What is written to the standard output is
    not kept. *)
Context {World : Type}.

(** Whether the standard output can encode [str(v)] for a value [v] of
    the user file: a string that holds a lone surrogate, which
    [json.load] does return, cannot be written to a UTF-8 stream. The
    fixed text of the program's messages and the text of an exception
    are taken to be writable, so the messages around the loop (lines
    589, 590 and 618), which quote only the date and two integers, are
    written and left out. *)
Variable printable : Json.t -> bool.

(** The two static parts of the HTML of [generate_email_body]: the part
    before the list of remedies, which quotes the name, the sign, the
    date and the fields of the prediction, and the part after it. *)
Variable html_head :
  Json.t -> string -> Datetime.date -> Prediction.t -> string.
Variable html_tail : string.

(** [date.strftime(format)] of the C library. *)
Variable strftime : string -> Datetime.date -> string.

(** [send_email]: it catches every exception of the mail library and
    answers [True] or [False]. *)
Variable send_email :
  string -> string -> Json.t -> string -> string -> World -> bool * World.

(** [print] of a message that quotes the given values: it raises when
    one of them cannot be encoded. *)
Definition print (values : list Json.t) : exn + unit :=
  if forallb printable values then inr tt else inl UnicodeEncodeError.

Definition generate_email_body (self : System.t) (name : Json.t)
  (rashi : string) (date : Datetime.date) : option string :=
  prediction_data ←
    generate_daily_prediction (System.prediction_engine self) rashi date;
  let html := html_head name rashi date prediction_data in
  let html :=
    fold_left (fun html remedy => html +:+ "<li>" +:+ remedy +:+ "</li>")
              (Prediction.remedies prediction_data) html in
  Some (html +:+ html_tail).

(** The body of the [try] for one user: whether a mail was accepted, and
    the world afterwards. A user whose sign is not a key is reported
    (line 600) and passed over by [continue]; for the others the
    progress message (line 603) is written before the mail is built. *)
Definition try_user (self : System.t) (today : Datetime.date)
  (sender_email sender_password : string) (user : Json.t) (w : World)
  : exn + (bool * World) :=
  and_then (Json.subscript user "name") (fun name =>
  and_then (Json.subscript user "email") (fun email =>
  and_then (Json.subscript user "rashi") (fun rashi =>
  and_then (Json.find_key rashi (System.rashi_mapping self).*1) (fun key =>
  match key with
  | None =>
      and_then (print [rashi; name]) (fun _ => inr (false, w))
  | Some rashi =>
      and_then (print [name; Json.JStr rashi]) (fun _ =>
      let subject :=
        "🌟 " +:+ strftime "%d-%m-%Y" today
        +:+ " - రోజువారీ రాశి ఫలాలు - " +:+ rashi in
      match generate_email_body self name rashi today with
      | None => inl OtherError
      | Some html_content =>
          inr (send_email sender_email sender_password email subject
                          html_content w)
      end)
  end)))).

(** What both handlers do (lines 614 and 616): they write a message
    that quotes [user.get('email', 'unknown')]. *)
Definition handle (user : Json.t) : exn + unit :=
  and_then (Json.get user "email" (Json.JStr "unknown"))
           (fun email => print [email]).

(** The loop over the users. An exception raised in a handler leaves
    the loop and the function. *)
Fixpoint send_loop (self : System.t) (today : Datetime.date)
  (sender_email sender_password : string) (users : list Json.t)
  (success_count : Z) (w : World) : (exn + Z) * World :=
  match users with
  | [] => (inr success_count, w)
  | user :: rest =>
      match try_user self today sender_email sender_password user w with
      | inr (sent, w') =>
          send_loop self today sender_email sender_password rest
            (if sent then success_count + 1 else success_count) w'
      | inl _ =>
          match handle user with
          | inr _ =>
              send_loop self today sender_email sender_password rest
                success_count w
          | inl e => (inl e, w)
          end
      end
  end.

(** [send_daily_horoscopes], with the date of the clock as [today]. *)
Definition send_daily_horoscopes (self : System.t) (users : list Json.t)
  (sender_email sender_password : string) (today : Datetime.date)
  (w : World) : (exn + Z) * World :=
  send_loop self today sender_email sender_password users 0 w.

End Mailer.

(** A world that only records the subjects handed to the mail server,
    and a server that accepts every mail. *)
Definition outbox_send (sender_email sender_password : string)
  (receiver_email : Json.t) (subject html_content : string)
  (outbox : list string) : bool * list string :=
  (true, outbox ++ [subject]).

Definition plain_head (name : Json.t) (rashi : string)
  (date : Datetime.date) (prediction_data : Prediction.t) : string :=
  "<ul>".

(** [strftime] for the directives [%d], [%m] and [%Y] and a year of four
    digits; any other character of the format is copied. *)
Fixpoint simple_strftime (format : string) (date : Datetime.date) : string :=
  match format with
  | EmptyString => EmptyString
  | String c rest =>
      match rest with
      | String directive rest' =>
          if Ascii.eqb c "%" then
            (if Ascii.eqb directive "d" then
               Py.zfill 2 (Py.str (Datetime.day date))
             else if Ascii.eqb directive "m" then
               Py.zfill 2 (Py.str (Datetime.month date))
             else if Ascii.eqb directive "Y" then
               Py.zfill 4 (Py.str (Datetime.year date))
             else String c (String directive EmptyString))
            +:+ simple_strftime rest' date
          else String c (simple_strftime rest date)
      | EmptyString => String c EmptyString
      end
  end.

(** A lone surrogate in a string, held in its three-byte form (a lead
    byte 237 followed by a byte from 160 on). *)
Fixpoint has_surrogate (s : string) : bool :=
  match s with
  | EmptyString => false
  | String c rest =>
      match rest with
      | String c' _ =>
          (N_of_ascii c =? 237)%N && (160 <=? N_of_ascii c')%N
          || has_surrogate rest
      | EmptyString => false
      end
  end.

(** A standard output that encodes to UTF-8: the [str] of a string is the
    string itself and is refused when it holds a lone surrogate; the
    [str] of any other value escapes the strings inside it. *)
Definition utf8_stdout (v : Json.t) : bool :=
  match v with
  | Json.JStr s => negb (has_surrogate s)
  | _ => true
  end.

Definition lone_surrogate : string :=
  String (ascii_of_nat 237) (String (ascii_of_nat 160)
    (String (ascii_of_nat 128) EmptyString)).

(** ** The specification's wording *)

(** The moon phase as the exact fraction of the 30-day cycle, and the
    four bands of the specification on it, checked in its order. *)
Definition exact_phase (date : Datetime.date) : Q :=
  Qmake (Datetime.days_between date reference_date mod 30) 30.

Definition Qltb (a b : Q) : bool := negb (Qle_bool b a).

Definition moon_phase_bands (phase : Q) : string :=
  if Qltb phase (3 # 100) || Qltb (97 # 100) phase then "అమావాస్య (New Moon)"
  else if Qltb (22 # 100) phase && Qltb phase (28 # 100) then
    "పూర్తి చంద్రుడు (Full Moon)"
  else if Qltb phase (25 # 100) then "వర్ధమాన చంద్రుడు (Waxing)"
  else "క్షీణించు చంద్రుడు (Waning)".


(** * Properties *)

(** ** The Python runtime *)

Example md5_empty :
  Hashlib.hexdigest (Py.encode "") = "d41d8cd98f00b204e9800998ecf8427e".
Proof. vm_compute. reflexivity. Qed.

Example md5_abc :
  Hashlib.hexdigest (Py.encode "abc") = "900150983cd24fb0d6963f7d28e17f72".
Proof. vm_compute. reflexivity. Qed.

Example md5_two_blocks :
  Hashlib.hexdigest (Py.encode
    "12345678901234567890123456789012345678901234567890123456789012345678901234567890")
  = "57edf4a22be3c955ac49da2e2107b67a".
Proof. vm_compute. reflexivity. Qed.

Example ordinal_of_reference :
  Datetime.toordinal reference_date = 738896 /\
  Datetime.weekday reference_date = 3 /\
  Datetime.isoformat reference_date = "2024-01-11" /\
  date_seed reference_date = Some 1734107559.
Proof. vm_compute. repeat split; reflexivity. Qed.

Section PyLemmas.
Context {A : Type}.
Implicit Types (l : list A) (i : Z).

Lemma getitem_in_range l i :
  0 <= i < Z.of_nat (length l) -> Py.getitem l i = l !! Z.to_nat i.
Proof.
  intros Hi. unfold Py.getitem.
  replace ((0 <=? i) && (i <? Z.of_nat (length l))) with true; [done|].
  symmetry. apply andb_true_iff. split; [apply Z.leb_le | apply Z.ltb_lt]; lia.
Qed.

Lemma getitem_is_Some l i :
  0 <= i < Z.of_nat (length l) -> is_Some (Py.getitem l i).
Proof.
  intros Hi. rewrite getitem_in_range by done.
  apply lookup_lt_is_Some. lia.
Qed.

Lemma getitem_elem_of l i x : Py.getitem l i = Some x -> x ∈ l.
Proof.
  unfold Py.getitem. repeat case_match; try discriminate;
    intros Hx; apply list_elem_of_lookup; eauto.
Qed.

(** Indexing with a remainder modulo the length never leaves the list. *)
Lemma getitem_mod_length l (n : Z) :
  l <> [] ->
  exists j x, Py.mod_ n (Z.of_nat (length l)) = Some j /\
              0 <= j < Z.of_nat (length l) /\
              Py.getitem l j = Some x /\ x ∈ l.
Proof.
  intros Hl. assert (0 < Z.of_nat (length l)) by (destruct l; simpl; [done | lia]).
  unfold Py.mod_. replace (Z.of_nat (length l) =? 0) with false
    by (symmetry; apply Z.eqb_neq; lia).
  pose proof (Z.mod_pos_bound n (Z.of_nat (length l)) ltac:(lia)) as Hj.
  destruct (getitem_is_Some l _ Hj) as [x Hx].
  eauto 10 using getitem_elem_of.
Qed.

Context `{EqDecision A}.

Lemma index_lookup l x j : Py.index l x = Some j -> 0 <= j /\ l !! Z.to_nat j = Some x.
Proof.
  revert j. induction l as [|y l IH]; intros j; simpl; [done|].
  case_decide as Hy.
  - intros [= <-]. subst. done.
  - destruct (Py.index l x) as [k|] eqn:Hk; simpl; [|done].
    intros [= <-]. destruct (IH k eq_refl) as [Hk0 Hl].
    split; [lia|]. rewrite Z2Nat.inj_succ by lia. done.
Qed.

(** In a list without duplicates [index] is the inverse of indexing. *)
Lemma index_of_lookup l (k : nat) x :
  NoDup l -> l !! k = Some x -> Py.index l x = Some (Z.of_nat k).
Proof.
  intros Hnd. revert k. induction Hnd as [|y l Hy Hnd IH]; intros k; [done|].
  destruct k as [|k]; simpl.
  - intros [= ->]. by rewrite decide_True.
  - intros Hk. rewrite decide_False.
    + rewrite (IH k Hk). simpl. f_equal. lia.
    + intros ->. apply Hy. apply list_elem_of_lookup. eauto.
Qed.
End PyLemmas.

(** Every integer below a bound is one of the naturals below it. *)
Lemma Z_below_nat (n : nat) (i : Z) :
  0 <= i < Z.of_nat n -> exists k : nat, i = Z.of_nat k /\ (k < n)%nat.
Proof. intros Hi. exists (Z.to_nat i). lia. Qed.

(** Case analysis on an integer known to lie in [0, n). *)
Ltac split_below k Ek Hk :=
  first
    [ exfalso; lia
    | destruct k as [|k]; [ simpl in Ek | split_below k Ek Hk ] ].

Ltac cases_below H :=
  match type of H with
  | 0 <= ?i < ?n =>
      let k := fresh "k" in
      let Hk := fresh "Hk" in
      let Ek := fresh "Ek" in
      destruct (Z_below_nat (Z.to_nat n) i ltac:(lia)) as (k & Ek & Hk);
      split_below k Ek Hk
  end.

(** A remainder modulo a literal indexes a list of that length. *)
Ltac mod_in_range :=
  match goal with
  | |- 0 <= ?a mod ?b < _ =>
      pose proof (Z.mod_pos_bound a b ltac:(lia)); simpl; lia
  end.

(** *** The seed *)

Lemma hex_digit_hex_char (n : Z) :
  0 <= n < 16 -> Py.hex_digit (Hashlib.hex_char n) = Some n.
Proof. intros Hn. cases_below Hn; subst n; reflexivity. Qed.

Lemma le_bytes_4 (w : Z) :
  Hashlib.le_bytes 4 w =
    [w mod 256; w / 256 mod 256; w / 256 / 256 mod 256;
     w / 256 / 256 / 256 mod 256].
Proof. reflexivity. Qed.

Lemma int16_hex_byte (acc b : Z) (rest : string) :
  0 <= b < 256 ->
  Py.int16_from acc (Hashlib.hex_byte b rest) =
    Py.int16_from (256 * acc + b) rest.
Proof.
  intros Hb. unfold Hashlib.hex_byte.
  cbn [Py.int16_from].
  rewrite !hex_digit_hex_char
    by (try apply Z.mod_pos_bound; try (split; [apply Z.div_pos | apply Z.div_lt_upper_bound]); lia).
  cbn [mbind option_bind]. f_equal.
  pose proof (Z.div_mod b 16). lia.
Qed.

(** The seed is the big-endian reading of the first four digest bytes:
    it always exists and fits 32 bits. *)
Lemma date_seed_total (date : Datetime.date) :
  exists seed, date_seed date = Some seed /\ 0 <= seed < 2 ^ 32.
Proof.
  unfold date_seed, Hashlib.hexdigest, Hashlib.digest.
  set (st := fold_left Hashlib.compress _ _).
  rewrite le_bytes_4. cbn [app fold_right].
  set (rest := fold_right Hashlib.hex_byte _ _).
  set (b0 := Hashlib.sa st mod 256).
  set (b1 := Hashlib.sa st / 256 mod 256).
  set (b2 := Hashlib.sa st / 256 / 256 mod 256).
  set (b3 := Hashlib.sa st / 256 / 256 / 256 mod 256).
  assert (Hb0 : 0 <= b0 < 256) by (apply Z.mod_pos_bound; lia).
  assert (Hb1 : 0 <= b1 < 256) by (apply Z.mod_pos_bound; lia).
  assert (Hb2 : 0 <= b2 < 256) by (apply Z.mod_pos_bound; lia).
  assert (Hb3 : 0 <= b3 < 256) by (apply Z.mod_pos_bound; lia).
  exists (256 * (256 * (256 * (256 * 0 + b0) + b1) + b2) + b3).
  split; [|lia].
  unfold Hashlib.hex_byte at 1 2 3 4. cbn [String.substring].
  unfold Py.int16.
  change (String (Hashlib.hex_char (b0 / 16)) (String (Hashlib.hex_char (b0 mod 16)) ?r))
    with (Hashlib.hex_byte b0 r).
  change (String (Hashlib.hex_char (b1 / 16)) (String (Hashlib.hex_char (b1 mod 16)) ?r))
    with (Hashlib.hex_byte b1 r).
  change (String (Hashlib.hex_char (b2 / 16)) (String (Hashlib.hex_char (b2 mod 16)) ?r))
    with (Hashlib.hex_byte b2 r).
  change (String (Hashlib.hex_char (b3 / 16)) (String (Hashlib.hex_char (b3 mod 16)) ?r))
    with (Hashlib.hex_byte b3 r).
  rewrite !int16_hex_byte by done.
  destruct rest; reflexivity.
Qed.

(** ** The panchang *)

Abbreviation calc := PanchangCalculator_init.
Abbreviation engine := DynamicPredictionEngine_init.

Lemma weekday_range (date : Datetime.date) : 0 <= Datetime.weekday date < 7.
Proof. unfold Datetime.weekday. apply Z.mod_pos_bound. lia. Qed.

Lemma lunar_day_range (date : Datetime.date) : 0 <= lunar_day date < 30.
Proof. unfold lunar_day. apply Z.mod_pos_bound. lia. Qed.

Lemma tithi_index_range (date : Datetime.date) : 0 <= tithi_index date < 15.
Proof. unfold tithi_index. apply Z.mod_pos_bound. lia. Qed.

Lemma nakshatra_index_range (date : Datetime.date) :
  0 <= nakshatra_index date < 27.
Proof. unfold nakshatra_index. apply Z.mod_pos_bound. lia. Qed.

Lemma nakshatras_NoDup : NoDup (nakshatras calc).
Proof. apply (bool_decide_unpack _). vm_compute. exact I. Qed.

Lemma get_tithi_total (date : Datetime.date) :
  exists name,
    Py.getitem (tithis calc) (tithi_index date) = Some name /\
    get_tithi calc date =
      Some ((if lunar_day date <? 15 then "శుక్ల పక్షం" else "కృష్ణ పక్షం")
              +:+ " " +:+ name).
Proof.
  destruct (getitem_is_Some (tithis calc) (tithi_index date)) as [name Hn].
  { pose proof (tithi_index_range date). simpl. lia. }
  exists name. split; [done|]. unfold get_tithi. rewrite Hn. reflexivity.
Qed.

(** The asterism exists, and searching its name in the list finds the
    index it was read from. *)
Lemma get_nakshatra_total (date : Datetime.date) :
  exists nakshatra,
    get_nakshatra calc date = Some nakshatra /\
    Py.index (nakshatras calc) nakshatra = Some (nakshatra_index date).
Proof.
  pose proof (nakshatra_index_range date) as Hi.
  destruct (getitem_is_Some (nakshatras calc) (nakshatra_index date))
    as [nakshatra Hn]; [simpl; lia|].
  exists nakshatra. split; [done|].
  rewrite getitem_in_range in Hn by (simpl; lia).
  rewrite (index_of_lookup _ _ _ nakshatras_NoDup Hn). f_equal. lia.
Qed.

Lemma get_weekday_telugu_total (date : Datetime.date) :
  is_Some (get_weekday_telugu calc date).
Proof.
  unfold get_weekday_telugu. pose proof (weekday_range date) as Hw.
  cases_below Hw; rewrite Ek; vm_compute; eauto.
Qed.

Lemma Qltb_lt (a b : Q) : Qltb a b = true <-> (a < b)%Q.
Proof.
  unfold Qltb. rewrite negb_true_iff. split.
  - intros Hb. apply Qnot_le_lt. intros Hle.
    apply Qle_bool_iff in Hle. congruence.
  - intros Hlt. destruct (Qle_bool b a) eqn:E; [|done].
    apply Qle_bool_iff in E. exfalso. by apply (Qlt_not_le _ _ Hlt).
Qed.

(** The label computed in floating point is the label of the exact
    fraction. *)
Lemma get_moon_phase_exact (date : Datetime.date) :
  get_moon_phase calc date = moon_phase_bands (exact_phase date).
Proof.
  unfold get_moon_phase, exact_phase.
  pose proof (lunar_day_range date) as Hl. unfold lunar_day in Hl.
  cbv zeta in Hl.
  cases_below Hl; rewrite Ek; vm_compute; reflexivity.
Qed.

(** ** The tables of the engine *)

Lemma rashi_base_aries : rashi_base engine !! "మేషం" = Some aries_info.
Proof. vm_compute. reflexivity. Qed.

(** The keys of [rashi_base] and of [rashi_colors] are the twelve signs
    of [rashi_mapping]; the three keys of [rashi_remedies] are among them. *)
Lemma rashi_base_dom : dom (rashi_base engine) = list_to_set rashi_mapping.*1.
Proof. apply (bool_decide_unpack _). vm_compute. exact I. Qed.

Lemma rashi_colors_dom : dom rashi_colors = list_to_set rashi_mapping.*1.
Proof. apply (bool_decide_unpack _). vm_compute. exact I. Qed.

Lemma rashi_remedies_dom :
  dom rashi_remedies ∪ list_to_set rashi_mapping.*1
  = list_to_set (C := gset string) rashi_mapping.*1.
Proof. apply (bool_decide_unpack _). vm_compute. exact I. Qed.

Lemma recognized_rashi_base (rashi : string) :
  recognized rashi <-> is_Some (rashi_base engine !! rashi).
Proof.
  rewrite <- elem_of_dom, rashi_base_dom, elem_of_list_to_set. done.
Qed.

Lemma unrecognized_rashi_base (rashi : string) :
  ~ recognized rashi -> rashi_base engine !! rashi = None.
Proof.
  intros Hr. apply eq_None_not_Some. by rewrite <- recognized_rashi_base.
Qed.

Lemma unrecognized_rashi_colors (rashi : string) :
  ~ recognized rashi -> rashi_colors !! rashi = None.
Proof.
  intros Hr. apply not_elem_of_dom.
  by rewrite rashi_colors_dom, elem_of_list_to_set.
Qed.

Lemma unrecognized_rashi_remedies (rashi : string) :
  ~ recognized rashi -> rashi_remedies !! rashi = None.
Proof.
  intros Hr. apply not_elem_of_dom. intros Hin. apply Hr.
  apply (elem_of_list_to_set (C := gset string)).
  rewrite <- rashi_remedies_dom. apply elem_of_union. by left.
Qed.

Lemma rashi_colors_nonempty (rashi : string) :
  default ["తెలుపు"] (rashi_colors !! rashi) <> [].
Proof.
  destruct (rashi_colors !! rashi) as [colors|] eqn:Hc; simpl; [|done].
  apply elem_of_list_to_map_2 in Hc.
  repeat (apply elem_of_cons in Hc as [Hc|Hc]; [by inversion Hc|]).
  by apply elem_of_nil in Hc.
Qed.

Lemma weekday_openings_total (weekday : Z) :
  0 <= weekday < 7 -> is_Some (weekday_openings !! weekday).
Proof. intros Hw. cases_below Hw; rewrite Ek; vm_compute; eauto. Qed.

(** Every weekday has exactly three candidate remedies. *)
Lemma weekday_remedies_total (weekday : Z) :
  0 <= weekday < 7 ->
  exists c1 c2 c3, weekday_remedies !! weekday = Some [c1; c2; c3].
Proof. intros Hw. cases_below Hw; rewrite Ek; vm_compute; eauto. Qed.

(** ** The steps of the engine *)

Lemma mod_nonzero (a b : Z) : b <> 0 -> Py.mod_ a b = Some (a mod b).
Proof.
  intros Hb. unfold Py.mod_.
  by replace (b =? 0) with false by (symmetry; by apply Z.eqb_neq).
Qed.

Lemma favorability_score_of_eq (info : RashiInfo) (weekday seed : Z)
  (nakshatra : string) (index : Z) :
  Py.index (nakshatras calc) nakshatra = Some index ->
  favorability_score_of engine info weekday seed nakshatra =
    Some ((if Py.contains weekday (favorable_days info) then 3 else 0)
          + (seed mod 10 - 5)
          + (if index mod 3 =? 0 then 1 else 0)).
Proof.
  intros Hi. unfold favorability_score_of.
  change (nakshatras (panchang engine)) with (nakshatras calc).
  rewrite Hi. cbn [mbind option_bind].
  destruct (Py.contains _ _), (index mod 3 =? 0); f_equal; lia.
Qed.

Lemma tone_of_cases (score : Z) :
  tone_of score ∈ ["favorable"; "neutral"; "challenging"].
Proof.
  unfold tone_of. repeat case_match; set_solver.
Qed.

Lemma templates_nonempty (tone : string) :
  tone ∈ ["favorable"; "neutral"; "challenging"] ->
  exists templates,
    prediction_templates engine !! tone = Some templates /\ templates <> [].
Proof.
  intros Ht.
  repeat (apply elem_of_cons in Ht as [->|Ht]);
    [ .. | by apply elem_of_nil in Ht ];
    match goal with
    | |- exists _, ?m !! ?k = _ /\ _ =>
        destruct (m !! k) as [ts|] eqn:E; vm_compute in E;
        [ injection E as <-; eexists; split; [reflexivity | discriminate]
        | discriminate ]
    end.
Qed.

Lemma area_sentence_total (tone : string) (seed : Z) (area : string) :
  tone ∈ ["favorable"; "neutral"; "challenging"] ->
  is_Some (area_sentence engine tone seed area).
Proof.
  intros Ht. destruct (templates_nonempty tone Ht) as (ts & Hts & Hne).
  destruct (getitem_mod_length ts seed Hne) as (j & x & Hj & _ & Hx & _).
  unfold area_sentence. rewrite Hts. cbn [mbind option_bind].
  rewrite Hj. cbn [mbind option_bind]. rewrite Hx. by eexists.
Qed.

Lemma build_prediction_total (info : RashiInfo) (weekday score seed : Z)
  (nakshatra moon_phase : string) :
  0 <= weekday < 7 ->
  is_Some (build_prediction engine info weekday (tone_of score) seed
                            nakshatra moon_phase).
Proof.
  intros Hw. destruct (weekday_openings_total weekday Hw) as [opening Ho].
  destruct (mapM_is_Some_2 (area_sentence engine (tone_of score) seed)
              (Py.slice_to 2 (areas info))) as [sentences Hs].
  { apply Forall_forall. intros area _.
    apply area_sentence_total, tone_of_cases. }
  unfold build_prediction. rewrite Ho. cbn [mbind option_bind].
  rewrite Hs. by eexists.
Qed.

(** The remedies, for any engine, sign and tone: two weekday remedies,
    then the sign's, then the fallback. *)
Lemma generate_daily_remedies_eq (self : DynamicPredictionEngine)
  (rashi : string) (weekday : Z) (tone c1 c2 c3 : string) :
  weekday_remedies !! weekday = Some [c1; c2; c3] ->
  generate_daily_remedies self rashi weekday tone =
    Some ([c1; c2]
          ++ match rashi_remedies !! rashi with
             | Some r => [r]
             | None => []
             end
          ++ if decide (tone = "challenging") then [fallback_remedy] else []).
Proof.
  intros Hc. unfold generate_daily_remedies. rewrite Hc.
  cbn [mbind option_bind Py.slice_to take app].
  destruct (rashi_remedies !! rashi); case_decide; reflexivity.
Qed.

Lemma generate_lucky_elements_eq (rashi : string) (date : Datetime.date)
  (score seed : Z) :
  date_seed date = Some seed ->
  let colors := default ["తెలుపు"] (rashi_colors !! rashi) in
  exists color number time direction,
    Py.getitem colors (seed mod Z.of_nat (length colors)) = Some color /\
    Py.getitem base_numbers ((Datetime.day date + score) mod 9) = Some number /\
    Py.getitem time_slots (seed mod 5) = Some time /\
    Py.getitem directions (seed mod 5) = Some direction /\
    generate_lucky_elements engine rashi date score =
      Some {| lucky_color := color; lucky_number := Py.str number;
              lucky_time := time; lucky_direction := direction |}.
Proof.
  intros Hs. cbv zeta.
  pose proof (rashi_colors_nonempty rashi) as Hne.
  unfold generate_lucky_elements. rewrite Hs. cbn [mbind option_bind].
  generalize dependent (default ["తెలుపు"] (rashi_colors !! rashi)).
  intros colors Hne.
  assert (Hlen : Z.of_nat (length colors) <> 0)
    by (destruct colors; [done | simpl; lia]).
  destruct (getitem_is_Some colors (seed mod Z.of_nat (length colors)))
    as [color Hcolor]; [apply Z.mod_pos_bound; lia|].
  destruct (getitem_is_Some base_numbers ((Datetime.day date + score) mod 9))
    as [number Hn]; [mod_in_range|].
  destruct (getitem_is_Some time_slots (seed mod 5)) as [time Ht]; [mod_in_range|].
  destruct (getitem_is_Some directions (seed mod 5)) as [direction Hd]; [mod_in_range|].
  exists color, number, time, direction. repeat (split; [done|]).
  rewrite (mod_nonzero _ _ Hlen). cbn [mbind option_bind].
  rewrite Hcolor. cbn [mbind option_bind]. rewrite Hn.
  cbn [mbind option_bind].
  change (Z.of_nat (length time_slots)) with 5.
  change (Z.of_nat (length directions)) with 5.
  rewrite (mod_nonzero seed 5) by lia. cbn [mbind option_bind].
  rewrite Ht, Hd. reflexivity.
Qed.

(** ** The whole of [generate_daily_prediction] *)

(** For every sign, recognized or not, and every date, each step of
    [generate_daily_prediction] succeeds, and the result is assembled
    from their values. *)
Lemma generate_steps (rashi : string) (date : Datetime.date) :
  let info := default aries_info (rashi_base engine !! rashi) in
  let weekday := Datetime.weekday date in
  let moon_phase := get_moon_phase calc date in
  exists tithi nakshatra weekday_telugu seed score full_prediction
         remedies lucky,
    get_tithi calc date = Some tithi /\
    get_nakshatra calc date = Some nakshatra /\
    Py.index (nakshatras calc) nakshatra = Some (nakshatra_index date) /\
    get_weekday_telugu calc date = Some weekday_telugu /\
    date_seed date = Some seed /\
    favorability_score_of engine info weekday seed nakshatra = Some score /\
    favorability_score engine rashi date = Some score /\
    build_prediction engine info weekday (tone_of score) seed nakshatra
                     moon_phase = Some full_prediction /\
    generate_daily_remedies engine rashi weekday (tone_of score)
      = Some remedies /\
    generate_lucky_elements engine rashi date score = Some lucky /\
    generate_daily_prediction engine rashi date =
      Some (assemble tithi nakshatra weekday_telugu moon_phase score
                     full_prediction remedies lucky).
Proof.
  intros info weekday moon_phase.
  pose proof (weekday_range date) as Hw. fold weekday in Hw.
  destruct (get_tithi_total date) as (name & _ & Htithi).
  destruct (get_nakshatra_total date) as (nakshatra & Hnak & Hindex).
  destruct (get_weekday_telugu_total date) as [weekday_telugu Hwt].
  destruct (date_seed_total date) as (seed & Hseed & _).
  pose proof (favorability_score_of_eq info weekday seed nakshatra _ Hindex)
    as Hscore.
  set (score := _ + _ + _) in Hscore.
  destruct (build_prediction_total info weekday score seed nakshatra
              moon_phase Hw) as [full_prediction Hpred].
  destruct (weekday_remedies_total weekday Hw) as (c1 & c2 & c3 & Hc).
  pose proof (generate_daily_remedies_eq engine rashi weekday (tone_of score)
                c1 c2 c3 Hc) as Hrem.
  destruct (generate_lucky_elements_eq rashi date score seed Hseed)
    as (color & number & time & direction & _ & _ & _ & _ & Hlucky).
  do 8 eexists. repeat (split; [eassumption|]).
  split.
  { unfold favorability_score.
    change (panchang engine) with calc.
    rewrite Hnak, rashi_base_aries, Hseed. cbn [mbind option_bind].
    exact Hscore. }
  repeat (split; [eassumption|]).
  unfold generate_daily_prediction.
  change (panchang engine) with calc.
  rewrite Htithi, Hnak, Hwt, rashi_base_aries, Hseed.
  cbn [mbind option_bind].
  fold info weekday moon_phase. rewrite Hscore. cbn [mbind option_bind].
  rewrite Hpred, Hrem, Hlucky. reflexivity.
Qed.

Example generate_on_the_reference_day :
  generate_daily_prediction engine "ధనుస్సు" reference_date =
  Some
    {| Prediction.prediction :=
         "గురువారం బృహస్పతి దేవుని కృపతో జ్ఞానం, అదృష్టం పెరుగుతాయి. ఈరోజు మీకు అనుకూలమైన రోజు. విద్యాలో మంచి పురోగతి ఉంటుంది. ఈరోజు మీకు అనుకూలమైన రోజు. ప్రయాణలో మంచి పురోగతి ఉంటుంది. అమావాస్య సమయం కొత్త ప్రారంభాలకు శుభం.";
       Prediction.panchang :=
         {| Panchang.tithi := "శుక్ల పక్షం పాడ్యమి";
            Panchang.nakshatra := "చిత్త";
            Panchang.weekday := "గురువారం";
            Panchang.moon_phase := "అమావాస్య (New Moon)" |};
       Prediction.lucky_color := "పసుపు";
       Prediction.lucky_number := "1";
       Prediction.lucky_time := "సాయంత్రం 6:00 - 8:00";
       Prediction.lucky_direction := "ఈశాన్యం";
       Prediction.remedies :=
         ["గురువారం బృహస్పతి దేవుడిని పూజించండి"; "పసుపు దానం";
          "విష్ణు సహస్రనామం చదవండి"];
       Prediction.favorability := "అనుకూలం" |}.
Proof. vm_compute. reflexivity. Qed.

(** ** The sign of a birth date *)

(** C9: a birth date on 21 March and one on 19 April get the same sign,
    and a birth date on 20 April gets the sign that follows it in the
    order of [rashi_mapping]. *)
Theorem calculate_rashi_boundary (d1 d2 d3 : Datetime.date) :
  Datetime.month d1 = 3 -> Datetime.day d1 = 21 ->
  Datetime.month d2 = 4 -> Datetime.day d2 = 19 ->
  Datetime.month d3 = 4 -> Datetime.day d3 = 20 ->
  calculate_rashi_from_dob d1 = calculate_rashi_from_dob d2 /\
  next_sign (calculate_rashi_from_dob d1) = Some (calculate_rashi_from_dob d3) /\
  calculate_rashi_from_dob d1 <> calculate_rashi_from_dob d3.
Proof.
  intros m1 e1 m2 e2 m3 e3. unfold calculate_rashi_from_dob.
  rewrite m1, e1, m2, e2, m3, e3. vm_compute. repeat split; discriminate.
Qed.

Lemma calculate_rashi_boundary_witness :
  let d1 := Datetime.mkdate 1990 3 21 eq_refl in
  let d2 := Datetime.mkdate 1985 4 19 eq_refl in
  let d3 := Datetime.mkdate 2001 4 20 eq_refl in
  calculate_rashi_from_dob d1 = calculate_rashi_from_dob d2 /\
  next_sign (calculate_rashi_from_dob d1) = Some (calculate_rashi_from_dob d3) /\
  calculate_rashi_from_dob d1 <> calculate_rashi_from_dob d3.
Proof.
  intros d1 d2 d3.
  apply (calculate_rashi_boundary d1 d2 d3); reflexivity.
Defined.

(** ** Totality *)

Example dates_before_the_references :
  let d := Datetime.mkdate 1999 12 31 eq_refl in
  Datetime.days_between d reference_date = -8777 /\
  Datetime.days_between d epoch_date = -1 /\
  tithi_index d = 13 /\ nakshatra_index d = 14 /\ Datetime.weekday d = 4 /\
  favorability_score engine "మేషం" d = Some (-2) /\
  (Datetime.day (Datetime.mkdate 2024 6 1 eq_refl) + -5) mod 9 = 5.
Proof. vm_compute. repeat split; reflexivity. Qed.

(** C10: for every sign and every date, also one before the reference
    new moon and before the epoch, [generate_daily_prediction] returns a
    result; the tithi index is in 0..14, the asterism index in 0..26, the
    weekday index in 0..6 and the lucky-number index in 0..8 whatever the
    score, and each of them selects an entry of its table. *)
Theorem generate_total (rashi : string) (date : Datetime.date) :
  (exists result, generate_daily_prediction engine rashi date = Some result) /\
  0 <= tithi_index date <= 14 /\
  0 <= nakshatra_index date <= 26 /\
  0 <= Datetime.weekday date <= 6 /\
  is_Some (Py.getitem (tithis calc) (tithi_index date)) /\
  is_Some (Py.getitem (nakshatras calc) (nakshatra_index date)) /\
  is_Some (weekdays_telugu calc !! Datetime.weekday date) /\
  is_Some (weekday_openings !! Datetime.weekday date) /\
  is_Some (weekday_remedies !! Datetime.weekday date) /\
  forall score : Z,
    0 <= (Datetime.day date + score) mod 9 <= 8 /\
    is_Some (Py.getitem base_numbers ((Datetime.day date + score) mod 9)).
Proof.
  pose proof (tithi_index_range date) as Ht.
  pose proof (nakshatra_index_range date) as Hn.
  pose proof (weekday_range date) as Hw.
  split.
  { destruct (generate_steps rashi date) as (? & ? & ? & ? & ? & ? & ? & ? & Hg).
    eexists. apply Hg. }
  repeat (split; [lia|]).
  split; [apply getitem_is_Some; simpl; lia|].
  split; [apply getitem_is_Some; simpl; lia|].
  split; [apply get_weekday_telugu_total|].
  split; [by apply weekday_openings_total|].
  split.
  { destruct (weekday_remedies_total _ Hw) as (c1 & c2 & c3 & ->). by eexists. }
  intros score.
  pose proof (Z.mod_pos_bound (Datetime.day date + score) 9 ltac:(lia)).
  split; [lia|]. apply getitem_is_Some. simpl. lia.
Qed.

(** ** Determinism *)

(** A date object is determined by its year, month and day. *)
Lemma date_ext (d1 d2 : Datetime.date) :
  Datetime.year d1 = Datetime.year d2 ->
  Datetime.month d1 = Datetime.month d2 ->
  Datetime.day d1 = Datetime.day d2 ->
  d1 = d2.
Proof.
  destruct d1 as [y1 m1 dd1 ok1], d2 as [y2 m2 dd2 ok2]. simpl.
  intros -> -> ->. f_equal. apply proof_irrel.
Qed.

(** C1: for a recognized sign and any date, [generate_daily_prediction]
    returns a result and a second invocation returns the same one; on any
    engine object two invocations in sequence agree field by field, and
    the result is the same for any date object with the same year, month
    and day. *)
Theorem generate_deterministic (rashi : string) (date : Datetime.date) :
  recognized rashi ->
  (exists result, generate_twice engine rashi date = Some (result, result)) /\
  (forall (self : DynamicPredictionEngine) (first second : Prediction.t),
     generate_twice self rashi date = Some (first, second) ->
     Prediction.prediction first = Prediction.prediction second /\
     Prediction.panchang first = Prediction.panchang second /\
     Prediction.lucky_color first = Prediction.lucky_color second /\
     Prediction.lucky_number first = Prediction.lucky_number second /\
     Prediction.lucky_time first = Prediction.lucky_time second /\
     Prediction.lucky_direction first = Prediction.lucky_direction second /\
     Prediction.remedies first = Prediction.remedies second /\
     Prediction.favorability first = Prediction.favorability second) /\
  (forall (self : DynamicPredictionEngine) (date' : Datetime.date),
     Datetime.year date' = Datetime.year date ->
     Datetime.month date' = Datetime.month date ->
     Datetime.day date' = Datetime.day date ->
     generate_daily_prediction self rashi date'
       = generate_daily_prediction self rashi date).
Proof.
  intros _. split; [|split].
  - destruct (generate_steps rashi date)
      as (? & ? & ? & ? & ? & ? & ? & ? &
          _ & _ & _ & _ & _ & _ & _ & _ & _ & _ & Hg).
    eexists. unfold generate_twice. rewrite Hg. reflexivity.
  - intros self first second. unfold generate_twice.
    destruct (generate_daily_prediction self rashi date) as [r|];
      cbn [mbind option_bind]; [|discriminate].
    intros [= <- <-]. repeat split.
  - intros self date' Hy Hm Hd. by rewrite (date_ext date' date Hy Hm Hd).
Qed.

Lemma generate_deterministic_witness :
  let d := Datetime.mkdate 2024 1 11 eq_refl in
  recognized "ధనుస్సు" /\
  exists result, generate_twice engine "ధనుస్సు" d = Some (result, result).
Proof.
  intros d.
  assert (Hr : recognized "ధనుస్సు") by (apply (bool_decide_unpack _); vm_compute; exact I).
  split; [exact Hr|].
  exact (proj1 (generate_deterministic "ధనుస్సు" d Hr)).
Defined.

(** ** The favorability score *)

Lemma recognized_dhanussu : recognized "ధనుస్సు".
Proof. apply (bool_decide_unpack _). vm_compute. exact I. Qed.

Lemma contains_spec (weekday : Z) (days : list Z) :
  if Py.contains weekday days then weekday ∈ days else weekday ∉ days.
Proof.
  unfold Py.contains. case_bool_decide; done.
Qed.

Lemma mod3_divide (index : Z) :
  if index mod 3 =? 0 then (3 | index) else ~ (3 | index).
Proof.
  destruct (Z.eqb_spec (index mod 3) 0) as [H0|H0].
  - by apply Z.mod_divide.
  - intros Hd. by apply Z.mod_divide in Hd.
Qed.

(** C2: for a recognized sign and any date the score is the sum of three
    terms: 3 when the weekday index is among the sign's favorable days,
    else 0; the first eight hexadecimal digits of the MD5 of the ISO form
    of the date, read as an unsigned integer, modulo 10, minus 5, which
    lies in -5..4; 1 when the index of the asterism in the list of 27 is
    divisible by 3, else 0. *)
Theorem favorability_score_three_terms (rashi : string)
  (date : Datetime.date) :
  recognized rashi ->
  exists info seed nakshatra index weekday_term hash_term asterism_term,
    rashi_base engine !! rashi = Some info /\
    ((Datetime.weekday date ∈ favorable_days info) /\ weekday_term = 3 \/
     (Datetime.weekday date ∉ favorable_days info) /\ weekday_term = 0) /\
    Py.int16 (String.substring 0 8
      (Hashlib.hexdigest (Py.encode (Datetime.isoformat date)))) = Some seed /\
    0 <= seed < 2 ^ 32 /\
    hash_term = seed mod 10 - 5 /\ -5 <= hash_term <= 4 /\
    get_nakshatra calc date = Some nakshatra /\
    length (nakshatras calc) = 27%nat /\
    Py.index (nakshatras calc) nakshatra = Some index /\
    ((3 | index) /\ asterism_term = 1 \/ ~ (3 | index) /\ asterism_term = 0) /\
    favorability_score engine rashi date
      = Some (weekday_term + hash_term + asterism_term).
Proof.
  intros Hr. apply recognized_rashi_base in Hr as [info Hinfo].
  destruct (get_nakshatra_total date) as (nakshatra & Hnak & Hindex).
  destruct (date_seed_total date) as (seed & Hseed & Hrange).
  pose proof (contains_spec (Datetime.weekday date) (favorable_days info)) as Hc.
  pose proof (mod3_divide (nakshatra_index date)) as Hd.
  pose proof (Z.mod_pos_bound seed 10 ltac:(lia)) as Hm.
  exists info, seed, nakshatra, (nakshatra_index date),
    (if Py.contains (Datetime.weekday date) (favorable_days info) then 3 else 0),
    (seed mod 10 - 5),
    (if nakshatra_index date mod 3 =? 0 then 1 else 0).
  split; [done|].
  split; [destruct (Py.contains _ _); auto|].
  split; [exact Hseed|].
  split; [done|]. split; [done|]. split; [lia|].
  split; [done|]. split; [reflexivity|]. split; [done|].
  split; [destruct (_ =? 0); auto|].
  unfold favorability_score. change (panchang engine) with calc.
  rewrite Hnak, rashi_base_aries, Hseed, Hinfo. cbn [mbind option_bind default].
  by apply favorability_score_of_eq.
Qed.

Lemma favorability_score_three_terms_witness :
  let d := Datetime.mkdate 2024 1 11 eq_refl in
  recognized "ధనుస్సు" /\
  exists info seed nakshatra index weekday_term hash_term asterism_term,
    rashi_base engine !! "ధనుస్సు" = Some info /\
    ((Datetime.weekday d ∈ favorable_days info) /\ weekday_term = 3 \/
     (Datetime.weekday d ∉ favorable_days info) /\ weekday_term = 0) /\
    Py.int16 (String.substring 0 8
      (Hashlib.hexdigest (Py.encode (Datetime.isoformat d)))) = Some seed /\
    0 <= seed < 2 ^ 32 /\
    hash_term = seed mod 10 - 5 /\ -5 <= hash_term <= 4 /\
    get_nakshatra calc d = Some nakshatra /\
    length (nakshatras calc) = 27%nat /\
    Py.index (nakshatras calc) nakshatra = Some index /\
    ((3 | index) /\ asterism_term = 1 \/ ~ (3 | index) /\ asterism_term = 0) /\
    favorability_score engine "ధనుస్సు" d
      = Some (weekday_term + hash_term + asterism_term).
Proof.
  intros d. split; [exact recognized_dhanussu|].
  exact (favorability_score_three_terms "ధనుస్సు" d recognized_dhanussu).
Defined.

Example favorability_score_on_a_favorable_day :
  favorability_score engine "ధనుస్సు" (Datetime.mkdate 2024 1 11 eq_refl)
    = Some (3 + 4 + 0).
Proof. vm_compute. reflexivity. Qed.

(** C3: for a recognized sign and any date the score lies in -5..8; the
    label shown to the user, the remedies and the prediction text of the
    result all come from that one score; and every integer falls in
    exactly one of the three buckets, on which tone and label agree. *)
Theorem favorability_score_buckets (rashi : string) (date : Datetime.date) :
  recognized rashi ->
  (exists score result info seed nakshatra,
     favorability_score engine rashi date = Some score /\
     -5 <= score <= 8 /\
     generate_daily_prediction engine rashi date = Some result /\
     Prediction.favorability result = favorability_label score /\
     generate_daily_remedies engine rashi (Datetime.weekday date)
       (tone_of score) = Some (Prediction.remedies result) /\
     rashi_base engine !! rashi = Some info /\
     date_seed date = Some seed /\
     get_nakshatra calc date = Some nakshatra /\
     build_prediction engine info (Datetime.weekday date) (tone_of score)
       seed nakshatra (get_moon_phase calc date)
       = Some (Prediction.prediction result)) /\
  forall s : Z,
    (3 <= s /\ tone_of s = "favorable" /\ favorability_label s = "అనుకూలం") \/
    (-2 < s < 3 /\ tone_of s = "neutral" /\ favorability_label s = "సాధారణం") \/
    (s <= -2 /\ tone_of s = "challenging" /\ favorability_label s = "జాగ్రత్త").
Proof.
  intros Hr. split.
  - apply recognized_rashi_base in Hr as [info Hinfo].
    pose proof (generate_steps rashi date) as Hsteps. cbv zeta in Hsteps.
    rewrite Hinfo in Hsteps. cbn [default from_option id] in Hsteps.
    destruct Hsteps
      as (tithi & nakshatra & wt & seed & score & pred & rem & lucky &
          _ & Hnak & Hindex & _ & Hseed & Hof & Hscore & Hpred & Hrem & _ & Hg).
    rewrite (favorability_score_of_eq _ _ _ _ _ Hindex) in Hof.
    apply (inj Some) in Hof.
    pose proof (Z.mod_pos_bound seed 10 ltac:(lia)) as Hm.
    eexists score, _, info, seed, nakshatra.
    split; [done|]. split.
    { subst score. destruct (Py.contains _ _), (_ =? 0); lia. }
    split; [exact Hg|]. split; [reflexivity|]. split; [exact Hrem|].
    split; [done|]. split; [done|]. split; [done|].
    exact Hpred.
  - intros s. unfold tone_of, favorability_label.
    destruct (Z.leb_spec 3 s); [left; split; [lia | done]|].
    destruct (Z.leb_spec s (-2)); [right; right | right; left];
      (split; [lia | done]).
Qed.

Lemma favorability_score_buckets_witness :
  let d := Datetime.mkdate 2024 1 11 eq_refl in
  recognized "ధనుస్సు" /\
  exists score result,
    favorability_score engine "ధనుస్సు" d = Some score /\
    -5 <= score <= 8 /\
    generate_daily_prediction engine "ధనుస్సు" d = Some result /\
    Prediction.favorability result = favorability_label score.
Proof.
  intros d. split; [exact recognized_dhanussu|].
  destruct (proj1 (favorability_score_buckets "ధనుస్సు" d recognized_dhanussu))
    as (score & result & _ & _ & _ & Hs & Hb & Hg & Hl & _).
  exists score, result. auto.
Defined.

(** ** An unrecognized sign *)

Lemma rashi_remedies_aries : rashi_remedies !! "మేషం" = None.
Proof. vm_compute. reflexivity. Qed.

Lemma unrecognized_english_name : ~ recognized "Aries".
Proof. apply (bool_decide_unpack _). vm_compute. exact I. Qed.

(** C4: for a sign that is not one of the twelve and any date,
    [generate_daily_prediction] does not fail: the sign is a key of
    neither [rashi_base] nor [rashi_colors], and the result is the one of
    the default sign with the lucky color replaced by the single default
    color. *)
Theorem unrecognized_sign_defaults (rashi : string) (date : Datetime.date) :
  ~ recognized rashi ->
  rashi_base engine !! rashi = None /\
  rashi_colors !! rashi = None /\
  exists default_result,
    generate_daily_prediction engine "మేషం" date = Some default_result /\
    generate_daily_prediction engine rashi date
      = Some (with_lucky_color default_result "తెలుపు").
Proof.
  intros Hr.
  pose proof (unrecognized_rashi_base _ Hr) as Hbase.
  pose proof (unrecognized_rashi_colors _ Hr) as Hcolors.
  split; [done|]. split; [done|].
  pose proof (generate_steps rashi date) as H1. cbv zeta in H1.
  pose proof (generate_steps "మేషం" date) as H2. cbv zeta in H2.
  rewrite Hbase in H1. rewrite rashi_base_aries in H2.
  cbn [default from_option id] in H1, H2.
  destruct H1 as (t1 & n1 & w1 & s1 & sc1 & p1 & r1 & l1 &
    Ht1 & Hn1 & _ & Hw1 & Hs1 & Hof1 & _ & Hp1 & Hr1 & Hl1 & Hg1).
  destruct H2 as (t2 & n2 & w2 & s2 & sc2 & p2 & r2 & l2 &
    Ht2 & Hn2 & _ & Hw2 & Hs2 & Hof2 & _ & Hp2 & Hr2 & Hl2 & Hg2).
  assert (t2 = t1) as -> by congruence.
  assert (n2 = n1) as -> by congruence.
  assert (w2 = w1) as -> by congruence.
  assert (s2 = s1) as -> by congruence.
  assert (sc2 = sc1) as -> by congruence.
  assert (p2 = p1) as -> by congruence.
  (* the remedies: neither sign has one of its own *)
  destruct (weekday_remedies_total _ (weekday_range date)) as (c1 & c2 & c3 & Hc).
  rewrite (generate_daily_remedies_eq _ _ _ _ _ _ _ Hc) in Hr1.
  rewrite (generate_daily_remedies_eq _ _ _ _ _ _ _ Hc) in Hr2.
  rewrite (unrecognized_rashi_remedies _ Hr) in Hr1.
  rewrite rashi_remedies_aries in Hr2.
  assert (r2 = r1) as -> by congruence.
  (* the lucky elements: only the color list differs *)
  pose proof (generate_lucky_elements_eq rashi date sc1 s1 Hs1) as E1.
  pose proof (generate_lucky_elements_eq "మేషం" date sc1 s1 Hs1) as E2.
  cbv zeta in E1, E2. rewrite Hcolors in E1.
  cbn [default from_option id length] in E1.
  destruct E1 as (k1 & m1 & tm1 & dr1 & Hk1 & Hm1 & Htm1 & Hdr1 & E1).
  destruct E2 as (k2 & m2 & tm2 & dr2 & _ & Hm2 & Htm2 & Hdr2 & E2).
  change (Z.of_nat 1) with 1 in Hk1. rewrite Z.mod_1_r in Hk1.
  apply (inj Some) in Hk1.
  assert (m2 = m1) as -> by congruence.
  assert (tm2 = tm1) as -> by congruence.
  assert (dr2 = dr1) as -> by congruence.
  rewrite E1 in Hl1. rewrite E2 in Hl2.
  apply (inj Some) in Hl1. apply (inj Some) in Hl2. subst l1 l2 k1.
  eexists. split; [exact Hg2|]. rewrite Hg1. reflexivity.
Qed.

Lemma unrecognized_sign_defaults_witness :
  let d := Datetime.mkdate 2024 1 11 eq_refl in
  ~ recognized "Aries" /\
  exists default_result,
    generate_daily_prediction engine "మేషం" d = Some default_result /\
    generate_daily_prediction engine "Aries" d
      = Some (with_lucky_color default_result "తెలుపు").
Proof.
  intros d. split; [exact unrecognized_english_name|].
  exact (proj2 (proj2
    (unrecognized_sign_defaults "Aries" d unrecognized_english_name))).
Defined.

Example unrecognized_sign_color :
  let d := Datetime.mkdate 2024 1 11 eq_refl in
  (Prediction.lucky_color <$> generate_daily_prediction engine "Aries" d)
    = Some "తెలుపు" /\
  (Prediction.lucky_color <$> generate_daily_prediction engine "మేషం" d)
    = Some "నారింజ".
Proof. vm_compute. split; reflexivity. Qed.

(** ** The moon phase *)

(** C5: for every date the label is the one the four bands give on the
    exact fraction phase = (days since the reference new moon mod 30) / 30,
    checked in the order new, full, waxing, waning; a phase strictly
    between 0.22 and 0.25 is labelled full. *)
Theorem moon_phase_priority (date : Datetime.date) :
  get_moon_phase calc date = moon_phase_bands (exact_phase date) /\
  ((22 # 100 < exact_phase date)%Q -> (exact_phase date < 25 # 100)%Q ->
   get_moon_phase calc date = "పూర్తి చంద్రుడు (Full Moon)").
Proof.
  split; [apply get_moon_phase_exact|].
  unfold get_moon_phase, exact_phase.
  pose proof (lunar_day_range date) as Hl. unfold lunar_day in Hl.
  cbv zeta in Hl.
  cases_below Hl; rewrite Ek; vm_compute; intros H1 H2;
    first [ reflexivity | discriminate H1 | discriminate H2 ].
Qed.

Lemma moon_phase_priority_witness :
  let d := Datetime.mkdate 2024 1 18 eq_refl in
  (22 # 100 < exact_phase d)%Q /\ (exact_phase d < 25 # 100)%Q /\
  get_moon_phase calc d = "పూర్తి చంద్రుడు (Full Moon)".
Proof.
  intros d.
  assert (H1 : (22 # 100 < exact_phase d)%Q) by reflexivity.
  assert (H2 : (exact_phase d < 25 # 100)%Q) by reflexivity.
  split; [exact H1|]. split; [exact H2|].
  exact (proj2 (moon_phase_priority d) H1 H2).
Defined.

Example moon_phase_at_reference :
  lunar_day reference_date = 0 /\
  get_tithi calc reference_date = Some "శుక్ల పక్షం పాడ్యమి" /\
  get_moon_phase calc reference_date = "అమావాస్య (New Moon)".
Proof. vm_compute. repeat split; reflexivity. Qed.

(** ** Periods *)

Lemma lunar_day_period (d d30 : Datetime.date) :
  Datetime.toordinal d30 = Datetime.toordinal d + 30 ->
  lunar_day d30 = lunar_day d.
Proof.
  intros H. unfold lunar_day, Datetime.days_between. rewrite H.
  replace (Datetime.toordinal d + 30 - Datetime.toordinal reference_date)
    with (Datetime.toordinal d - Datetime.toordinal reference_date + 1 * 30)
    by lia.
  apply Z_mod_plus_full.
Qed.

Lemma nakshatra_index_period (d d27 : Datetime.date) :
  Datetime.toordinal d27 = Datetime.toordinal d + 27 ->
  nakshatra_index d27 = nakshatra_index d.
Proof.
  intros H. unfold nakshatra_index, Datetime.days_between. rewrite H.
  replace ((Datetime.toordinal d + 27 - Datetime.toordinal epoch_date) * 13)
    with ((Datetime.toordinal d - Datetime.toordinal epoch_date) * 13 + 13 * 27)
    by lia.
  apply Z_mod_plus_full.
Qed.

(** C6: for every date [d], any date 30 days after [d] has the same
    lunar-day label and the same moon-phase label as [d], and any date 27
    days after [d] has the same asterism index (and asterism) as [d]; the
    two periods are independent of each other. *)
Theorem panchang_periods (d : Datetime.date) :
  (forall d30 : Datetime.date,
     Datetime.days_between d30 d = 30 ->
     get_tithi calc d30 = get_tithi calc d /\
     get_moon_phase calc d30 = get_moon_phase calc d) /\
  (forall d27 : Datetime.date,
     Datetime.days_between d27 d = 27 ->
     nakshatra_index d27 = nakshatra_index d /\
     get_nakshatra calc d27 = get_nakshatra calc d).
Proof.
  unfold Datetime.days_between. split.
  - intros d30 H30.
    assert (Hl : lunar_day d30 = lunar_day d) by (apply lunar_day_period; lia).
    split.
    + unfold get_tithi, tithi_index. by rewrite Hl.
    + unfold get_moon_phase.
      change (Datetime.days_between d30 reference_date mod 30)
        with (lunar_day d30).
      change (Datetime.days_between d reference_date mod 30)
        with (lunar_day d).
      by rewrite Hl.
  - intros d27 H27.
    assert (Hn : nakshatra_index d27 = nakshatra_index d)
      by (apply nakshatra_index_period; lia).
    split; [exact Hn|]. unfold get_nakshatra. by rewrite Hn.
Qed.

(** The 30-day period on a date of 2024, and the 27-day period on
    3 December 9999, a date that has no date 30 days after it. *)
Lemma panchang_periods_witness :
  let d := Datetime.mkdate 2024 1 18 eq_refl in
  let d30 := Datetime.mkdate 2024 2 17 eq_refl in
  let e := Datetime.mkdate 9999 12 3 eq_refl in
  let e27 := Datetime.mkdate 9999 12 30 eq_refl in
  (Datetime.days_between d30 d = 30 /\
   get_tithi calc d30 = get_tithi calc d /\
   get_moon_phase calc d30 = get_moon_phase calc d) /\
  (Datetime.days_between e27 e = 27 /\
   nakshatra_index e27 = nakshatra_index e /\
   get_nakshatra calc e27 = get_nakshatra calc e).
Proof.
  intros d d30 e e27.
  assert (H30 : Datetime.days_between d30 d = 30) by reflexivity.
  assert (H27 : Datetime.days_between e27 e = 27) by reflexivity.
  split.
  - split; [exact H30|]. exact (proj1 (panchang_periods d) d30 H30).
  - split; [exact H27|]. exact (proj2 (panchang_periods e) e27 H27).
Defined.

(** ** Remedies *)

(** C7: for a recognized sign, a weekday index in 0..6 and any tone, the
    remedies are the first two of the weekday's three candidates, then
    the sign's own remedy when it has one, then the fallback sentence
    when the tone is challenging: between two and four entries. *)
Theorem remedies_order (rashi : string) (weekday : Z) (tone : string) :
  recognized rashi ->
  0 <= weekday <= 6 ->
  exists c1 c2 c3 remedies,
    weekday_remedies !! weekday = Some [c1; c2; c3] /\
    generate_daily_remedies engine rashi weekday tone = Some remedies /\
    remedies =
      [c1; c2]
      ++ match rashi_remedies !! rashi with
         | Some r => [r]
         | None => []
         end
      ++ (if decide (tone = "challenging") then [fallback_remedy] else []) /\
    (2 <= length remedies <= 4)%nat.
Proof.
  intros _ Hw.
  destruct (weekday_remedies_total weekday ltac:(lia)) as (c1 & c2 & c3 & Hc).
  exists c1, c2, c3. eexists. split; [done|].
  split; [exact (generate_daily_remedies_eq _ _ _ _ _ _ _ Hc)|].
  split; [done|].
  destruct (rashi_remedies !! rashi); case_decide; simpl; lia.
Qed.

Lemma remedies_order_witness :
  recognized "ధనుస్సు" /\ 0 <= 3 <= 6 /\
  exists c1 c2 c3 remedies,
    weekday_remedies !! 3 = Some [c1; c2; c3] /\
    generate_daily_remedies engine "ధనుస్సు" 3 "challenging" = Some remedies /\
    remedies =
      [c1; c2]
      ++ match rashi_remedies !! "ధనుస్సు" with
         | Some r => [r]
         | None => []
         end
      ++ (if decide ("challenging" = "challenging")
          then [fallback_remedy] else []) /\
    (2 <= length remedies <= 4)%nat.
Proof.
  assert (Hw : 0 <= 3 <= 6) by lia.
  split; [exact recognized_dhanussu|]. split; [exact Hw|].
  exact (remedies_order "ధనుస్సు" 3 "challenging" recognized_dhanussu Hw).
Defined.

Example remedies_of_all_lengths :
  (length <$> generate_daily_remedies engine "మేషం" 0 "neutral") = Some 2%nat /\
  (length <$> generate_daily_remedies engine "సింహం" 0 "neutral") = Some 3%nat /\
  (length <$> generate_daily_remedies engine "మేషం" 0 "challenging") = Some 3%nat /\
  (length <$> generate_daily_remedies engine "సింహం" 6 "challenging") = Some 4%nat.
Proof. vm_compute. repeat split; reflexivity. Qed.

(** ** The lucky number *)

(** C8: for a recognized sign, any date and any score, the lucky number
    is the decimal form of the entry of the sequence 1..9 at index
    (day of the month + score) mod 9, one of the strings 1 to 9. *)
Theorem lucky_number_digit (rashi : string) (date : Datetime.date)
  (score : Z) :
  recognized rashi ->
  exists lucky number,
    generate_lucky_elements engine rashi date score = Some lucky /\
    base_numbers = [1; 2; 3; 4; 5; 6; 7; 8; 9] /\
    Py.getitem base_numbers ((Datetime.day date + score) mod 9)
      = Some number /\
    number = (Datetime.day date + score) mod 9 + 1 /\
    lucky_number lucky = Py.str number /\
    lucky_number lucky ∈ ["1"; "2"; "3"; "4"; "5"; "6"; "7"; "8"; "9"].
Proof.
  intros _.
  destruct (date_seed_total date) as (seed & Hseed & _).
  destruct (generate_lucky_elements_eq rashi date score seed Hseed)
    as (color & number & time & direction & _ & Hn & _ & _ & Hl).
  eexists _, number. split; [exact Hl|]. split; [reflexivity|].
  split; [exact Hn|]. cbn [lucky_number].
  pose proof (Z.mod_pos_bound (Datetime.day date + score) 9 ltac:(lia)) as Hi.
  revert Hn. generalize dependent ((Datetime.day date + score) mod 9).
  intros i Hi Hn.
  cases_below Hi; subst i; vm_compute in Hn; apply (inj Some) in Hn;
    subst number; (split; [reflexivity|]); (split; [reflexivity|]);
    apply (bool_decide_unpack _); vm_compute; exact I.
Qed.

Lemma lucky_number_digit_witness :
  let d := Datetime.mkdate 2024 6 1 eq_refl in
  recognized "ధనుస్సు" /\
  exists lucky number,
    generate_lucky_elements engine "ధనుస్సు" d (-5) = Some lucky /\
    base_numbers = [1; 2; 3; 4; 5; 6; 7; 8; 9] /\
    Py.getitem base_numbers ((Datetime.day d + -5) mod 9) = Some number /\
    number = (Datetime.day d + -5) mod 9 + 1 /\
    lucky_number lucky = Py.str number /\
    lucky_number lucky ∈ ["1"; "2"; "3"; "4"; "5"; "6"; "7"; "8"; "9"].
Proof.
  intros d. split; [exact recognized_dhanussu|].
  exact (lucky_number_digit "ధనుస్సు" d (-5) recognized_dhanussu).
Defined.

Example lucky_number_negative_sum :
  lucky_number <$>
    generate_lucky_elements engine "ధనుస్సు"
      (Datetime.mkdate 2024 6 1 eq_refl) (-5)
  = Some "6".
Proof. vm_compute. reflexivity. Qed.

(** * Further properties of the code *)

(** ** Calendar arithmetic *)

(** A check of all integers below a bound, by evaluation. *)
Lemma forall_below (n : nat) (p : Z -> bool) :
  forallb p (Z.of_nat <$> seq 0 n) = true ->
  forall i, 0 <= i < Z.of_nat n -> p i = true.
Proof.
  intros Hall i Hi. rewrite forallb_forall in Hall. apply Hall.
  apply list_elem_of_In, list_elem_of_fmap. exists (Z.to_nat i).
  split; [lia|]. apply elem_of_seq. lia.
Qed.

Lemma date_fields_range (d : Datetime.date) :
  1 <= Datetime.year d <= 9999 /\
  1 <= Datetime.month d <= 12 /\
  1 <= Datetime.day d <= Datetime.days_in_month (Datetime.year d) (Datetime.month d).
Proof.
  destruct d as [y m dd ok]. simpl. unfold Datetime.check_date_fields in ok.
  repeat (apply andb_true_iff in ok as [ok ?]). lia.
Qed.

Lemma days_before_year_succ (y : Z) :
  Datetime.days_before_year (y + 1) =
    Datetime.days_before_year y + (if Datetime.is_leap y then 366 else 365).
Proof.
  unfold Datetime.days_before_year, Datetime.is_leap. cbv zeta.
  replace (y + 1 - 1) with y by lia.
  destruct (Z.eqb_spec (y mod 4) 0), (Z.eqb_spec (y mod 100) 0),
    (Z.eqb_spec (y mod 400) 0); simpl;
    Z.div_mod_to_equations; lia.
Qed.

Lemma days_before_year_mono (y y' : Z) :
  y <= y' -> Datetime.days_before_year y <= Datetime.days_before_year y'.
Proof.
  intros Hy. unfold Datetime.days_before_year. cbv zeta.
  Z.div_mod_to_equations. lia.
Qed.

(** The day of the year lies within the year. *)
Lemma day_of_year_range (y m dd : Z) :
  1 <= m <= 12 -> 1 <= dd <= Datetime.days_in_month y m ->
  1 <= Datetime.days_before_month y m + dd
    <= (if Datetime.is_leap y then 366 else 365).
Proof.
  intros Hm. unfold Datetime.days_in_month, Datetime.days_before_month.
  assert (Hm' : 0 <= m < 13) by lia.
  cases_below Hm'; subst m; try lia;
    destruct (Datetime.is_leap y); simpl; lia.
Qed.

(** Distinct dates have distinct ordinals. *)
Lemma ymd2ord_inj (y1 m1 dd1 y2 m2 dd2 : Z) :
  1 <= m1 <= 12 -> 1 <= dd1 <= Datetime.days_in_month y1 m1 ->
  1 <= m2 <= 12 -> 1 <= dd2 <= Datetime.days_in_month y2 m2 ->
  Datetime.ymd2ord y1 m1 dd1 = Datetime.ymd2ord y2 m2 dd2 ->
  y1 = y2 /\ m1 = m2 /\ dd1 = dd2.
Proof.
  intros Hm1 Hd1 Hm2 Hd2 Ho. unfold Datetime.ymd2ord in Ho.
  pose proof (day_of_year_range y1 m1 dd1 Hm1 Hd1) as R1.
  pose proof (day_of_year_range y2 m2 dd2 Hm2 Hd2) as R2.
  assert (y1 = y2) as <-.
  { destruct (Z.lt_trichotomy y1 y2) as [Hlt|[Heq|Hgt]]; [|done|].
    - pose proof (days_before_year_mono (y1 + 1) y2 ltac:(lia)) as Hmono.
      rewrite days_before_year_succ in Hmono. lia.
    - pose proof (days_before_year_mono (y2 + 1) y1 ltac:(lia)) as Hmono.
      rewrite days_before_year_succ in Hmono. lia. }
  split; [done|].
  assert (Hs : Datetime.days_before_month y1 m1 + dd1
               = Datetime.days_before_month y1 m2 + dd2) by lia.
  clear Ho R1 R2. revert Hd1 Hd2 Hs.
  unfold Datetime.days_in_month, Datetime.days_before_month.
  assert (Hm1' : 0 <= m1 < 13) by lia. assert (Hm2' : 0 <= m2 < 13) by lia.
  cases_below Hm1'; subst m1; try lia;
    cases_below Hm2'; subst m2; try lia;
    destruct (Datetime.is_leap y1); simpl; lia.
Qed.

Lemma toordinal_inj (d1 d2 : Datetime.date) :
  Datetime.toordinal d1 = Datetime.toordinal d2 -> d1 = d2.
Proof.
  intros Ho. pose proof (date_fields_range d1) as (_ & Hm1 & Hd1).
  pose proof (date_fields_range d2) as (_ & Hm2 & Hd2).
  destruct (ymd2ord_inj _ _ _ _ _ _ Hm1 Hd1 Hm2 Hd2 Ho) as (? & ? & ?).
  by apply date_ext.
Qed.

(** The day after [d1], field by field. *)
Lemma next_day_fields (d1 d2 : Datetime.date) :
  Datetime.toordinal d2 = Datetime.toordinal d1 + 1 ->
  (Datetime.month d2 = Datetime.month d1 /\
   Datetime.day d2 = Datetime.day d1 + 1) \/
  (Datetime.month d2 = Datetime.month d1 + 1 /\ Datetime.day d2 = 1 /\
   Datetime.day d1
     = Datetime.days_in_month (Datetime.year d1) (Datetime.month d1)) \/
  (Datetime.month d1 = 12 /\ Datetime.day d1 = 31 /\
   Datetime.month d2 = 1 /\ Datetime.day d2 = 1).
Proof.
  intros Ho. pose proof (date_fields_range d1) as (_ & Hm1 & Hd1).
  pose proof (date_fields_range d2) as (_ & Hm2 & Hd2).
  unfold Datetime.toordinal in Ho.
  set (y := Datetime.year d1) in *. set (m := Datetime.month d1) in *.
  set (dd := Datetime.day d1) in *.
  destruct (Z.eq_dec dd (Datetime.days_in_month y m)) as [Hlast|Hmid].
  - destruct (Z.eq_dec m 12) as [Hdec|Hnot].
    + (* 31 December: 1 January of the next year *)
      assert (Hc : Datetime.ymd2ord (y + 1) 1 1 = Datetime.ymd2ord y m dd + 1).
      { unfold Datetime.ymd2ord. rewrite days_before_year_succ, Hlast, Hdec.
        unfold Datetime.days_before_month, Datetime.days_in_month.
        destruct (Datetime.is_leap y), (Datetime.is_leap (y + 1)); simpl; lia. }
      rewrite <- Hc in Ho.
      destruct (ymd2ord_inj _ _ _ (y + 1) 1 1 Hm2 Hd2
                  ltac:(lia) ltac:(by vm_compute) Ho) as (_ & ? & ?).
      right. right. rewrite Hdec in Hlast. vm_compute in Hlast. done.
    + (* the last day of another month: the first of the next *)
      assert (Hm' : 0 <= m < 12) by lia.
      assert (Hc : Datetime.ymd2ord y (m + 1) 1 = Datetime.ymd2ord y m dd + 1).
      { unfold Datetime.ymd2ord. rewrite Hlast.
        unfold Datetime.days_before_month, Datetime.days_in_month.
        clear -Hm' Hm1. cases_below Hm'; try lia; rewrite Ek;
          destruct (Datetime.is_leap y); simpl; lia. }
      rewrite <- Hc in Ho.
      assert (Hd : 1 <= 1 <= Datetime.days_in_month y (m + 1)).
      { unfold Datetime.days_in_month.
        clear -Hm' Hm1. cases_below Hm'; try lia; rewrite Ek;
          destruct (Datetime.is_leap y); simpl; lia. }
      destruct (ymd2ord_inj _ _ _ y (m + 1) 1 Hm2 Hd2 ltac:(lia) Hd Ho)
        as (_ & ? & ?).
      right. left. done.
  - (* any other day: the next day of the same month *)
    assert (Hc : Datetime.ymd2ord y m (dd + 1) = Datetime.ymd2ord y m dd + 1)
      by (unfold Datetime.ymd2ord; lia).
    rewrite <- Hc in Ho.
    destruct (ymd2ord_inj _ _ _ y m (dd + 1) Hm2 Hd2 Hm1 ltac:(lia) Ho)
      as (_ & ? & ?).
    left. done.
Qed.

Lemma mod_eq_divide (n a b : Z) :
  0 < n -> a mod n = b mod n <-> (n | a - b).
Proof.
  intros Hn. split.
  - intros Hab. exists (a / n - b / n).
    pose proof (Z.div_mod a n ltac:(lia)). pose proof (Z.div_mod b n ltac:(lia)).
    lia.
  - intros [c Hc]. replace a with (b + c * n) by lia. apply Z_mod_plus_full.
Qed.

(** ** More on the panchang *)

Lemma get_tithi_of_lunar_day (date : Datetime.date) :
  get_tithi calc date = tithi_of_lunar_day calc (lunar_day date).
Proof. reflexivity. Qed.

(** The thirty labels of a lunar month are pairwise distinct. *)
Lemma tithi_of_lunar_day_inj (k1 k2 : Z) :
  0 <= k1 < 30 -> 0 <= k2 < 30 ->
  tithi_of_lunar_day calc k1 = tithi_of_lunar_day calc k2 -> k1 = k2.
Proof.
  intros H1 H2 Heq.
  pose proof (forall_below 30
    (fun a => forallb (fun b =>
       implb (bool_decide (tithi_of_lunar_day calc a = tithi_of_lunar_day calc b))
             (a =? b)) (Z.of_nat <$> seq 0 30))) as Hcheck.
  specialize (Hcheck ltac:(vm_compute; reflexivity) k1 H1).
  cbv beta in Hcheck.
  pose proof (forall_below 30 _ Hcheck k2 H2) as Hk. cbv beta in Hk.
  rewrite (bool_decide_eq_true_2 _ Heq) in Hk. simpl in Hk. lia.
Qed.

(** The moon-phase label in terms of the day of the lunar month. *)
Lemma get_moon_phase_by_day (date : Datetime.date) :
  get_moon_phase calc date =
    if lunar_day date =? 0 then "అమావాస్య (New Moon)"
    else if lunar_day date <? 7 then "వర్ధమాన చంద్రుడు (Waxing)"
    else if lunar_day date <? 9 then "పూర్తి చంద్రుడు (Full Moon)"
    else "క్షీణించు చంద్రుడు (Waning)".
Proof.
  unfold get_moon_phase.
  change (Datetime.days_between date reference_date mod 30)
    with (lunar_day date).
  pose proof (lunar_day_range date) as Hl.
  cases_below Hl; rewrite Ek; vm_compute; reflexivity.
Qed.

(** X1: the moon-phase label is New Moon exactly on day 0 of the lunar
    month (the test [phase > 0.97] never holds), Waxing on days 1 to 6,
    Full Moon on days 7 and 8, and Waning on days 9 to 29. *)
Theorem moon_phase_by_lunar_day (date : Datetime.date) :
  (get_moon_phase calc date = "అమావాస్య (New Moon)" <-> lunar_day date = 0) /\
  (get_moon_phase calc date = "వర్ధమాన చంద్రుడు (Waxing)"
     <-> 1 <= lunar_day date <= 6) /\
  (get_moon_phase calc date = "పూర్తి చంద్రుడు (Full Moon)"
     <-> 7 <= lunar_day date <= 8) /\
  (get_moon_phase calc date = "క్షీణించు చంద్రుడు (Waning)"
     <-> 9 <= lunar_day date <= 29).
Proof.
  rewrite get_moon_phase_by_day. pose proof (lunar_day_range date) as Hl.
  destruct (Z.eqb_spec (lunar_day date) 0), (Z.ltb_spec (lunar_day date) 7),
    (Z.ltb_spec (lunar_day date) 9);
    repeat split; intros; first [ lia | discriminate | reflexivity ].
Qed.

(** X2: two dates get the same lunar-day label exactly when they are a
    multiple of 30 days apart. *)
Theorem get_tithi_same_iff (d1 d2 : Datetime.date) :
  get_tithi calc d1 = get_tithi calc d2 <-> (30 | Datetime.days_between d1 d2).
Proof.
  rewrite !get_tithi_of_lunar_day.
  assert (Hl : lunar_day d1 = lunar_day d2 <-> (30 | Datetime.days_between d1 d2)).
  { unfold lunar_day, Datetime.days_between. cbv zeta.
    rewrite mod_eq_divide by lia.
    by replace (Datetime.toordinal d1 - Datetime.toordinal reference_date
                - (Datetime.toordinal d2 - Datetime.toordinal reference_date))
      with (Datetime.toordinal d1 - Datetime.toordinal d2) by lia. }
  rewrite <- Hl. split.
  - apply tithi_of_lunar_day_inj; apply lunar_day_range.
  - by intros ->.
Qed.

(** X3: two dates get the same asterism exactly when they are a multiple
    of 27 days apart, so 27 consecutive days see each asterism once. *)
Theorem get_nakshatra_same_iff (d1 d2 : Datetime.date) :
  get_nakshatra calc d1 = get_nakshatra calc d2
    <-> (27 | Datetime.days_between d1 d2).
Proof.
  assert (Hi : nakshatra_index d1 = nakshatra_index d2
               <-> (27 | Datetime.days_between d1 d2)).
  { unfold nakshatra_index, Datetime.days_between. cbv zeta.
    rewrite mod_eq_divide by lia.
    replace ((Datetime.toordinal d1 - Datetime.toordinal epoch_date) * 13
             - (Datetime.toordinal d2 - Datetime.toordinal epoch_date) * 13)
      with (13 * (Datetime.toordinal d1 - Datetime.toordinal d2)) by lia.
    split.
    - intros Hd. by apply (Z.gauss 27 13).
    - intros Hd. by apply Z.divide_mul_r. }
  rewrite <- Hi. split.
  - intros Heq.
    destruct (get_nakshatra_total d1) as (n1 & Hn1 & Hx1).
    destruct (get_nakshatra_total d2) as (n2 & Hn2 & Hx2).
    assert (n1 = n2) as -> by congruence. congruence.
  - unfold get_nakshatra. by intros ->.
Qed.


(** X5: on the day whose lunar-day name is the full-moon or new-moon
    tithi (day 14 or day 29 of the lunar month), the moon-phase label is
    Waning, neither Full Moon nor New Moon. *)
Theorem purnima_tithi_is_labelled_waning (date : Datetime.date) :
  get_tithi calc date = Some "శుక్ల పక్షం పౌర్ణమి/అమావాస్య" \/
  get_tithi calc date = Some "కృష్ణ పక్షం పౌర్ణమి/అమావాస్య" ->
  (lunar_day date = 14 \/ lunar_day date = 29) /\
  get_moon_phase calc date = "క్షీణించు చంద్రుడు (Waning)".
Proof.
  intros Ht. pose proof (lunar_day_range date) as Hl.
  assert (Hk : lunar_day date = 14 \/ lunar_day date = 29).
  { rewrite get_tithi_of_lunar_day in Ht. destruct Ht as [Ht|Ht].
    - left. apply tithi_of_lunar_day_inj; [done | lia |].
      rewrite Ht. vm_compute. reflexivity.
    - right. apply tithi_of_lunar_day_inj; [done | lia |].
      rewrite Ht. vm_compute. reflexivity. }
  split; [done|]. rewrite get_moon_phase_by_day.
  destruct Hk as [-> | ->]; reflexivity.
Qed.

Lemma purnima_tithi_is_labelled_waning_witness :
  let d := Datetime.mkdate 2024 1 25 eq_refl in
  get_tithi calc d = Some "శుక్ల పక్షం పౌర్ణమి/అమావాస్య" /\
  (lunar_day d = 14 \/ lunar_day d = 29) /\
  get_moon_phase calc d = "క్షీణించు చంద్రుడు (Waning)".
Proof.
  intros d.
  assert (Ht : get_tithi calc d = Some "శుక్ల పక్షం పౌర్ణమి/అమావాస్య")
    by (vm_compute; reflexivity).
  split; [exact Ht|].
  exact (purnima_tithi_is_labelled_waning d (or_introl Ht)).
Defined.

(** ** More on the prediction engine *)

(** Every field of the result, for any sign and date, in terms of the
    seed and the score. *)
Lemma generate_shape (rashi : string) (date : Datetime.date) :
  exists result seed score number,
    generate_daily_prediction engine rashi date = Some result /\
    date_seed date = Some seed /\
    favorability_score engine rashi date = Some score /\
    get_tithi calc date = Some (Panchang.tithi (Prediction.panchang result)) /\
    get_nakshatra calc date
      = Some (Panchang.nakshatra (Prediction.panchang result)) /\
    get_weekday_telugu calc date
      = Some (Panchang.weekday (Prediction.panchang result)) /\
    Panchang.moon_phase (Prediction.panchang result)
      = get_moon_phase calc date /\
    Py.getitem (default ["తెలుపు"] (rashi_colors !! rashi))
      (seed mod Z.of_nat (length (default ["తెలుపు"] (rashi_colors !! rashi))))
      = Some (Prediction.lucky_color result) /\
    Py.getitem base_numbers ((Datetime.day date + score) mod 9) = Some number /\
    Prediction.lucky_number result = Py.str number /\
    Py.getitem time_slots (seed mod 5) = Some (Prediction.lucky_time result) /\
    Py.getitem directions (seed mod 5)
      = Some (Prediction.lucky_direction result) /\
    generate_daily_remedies engine rashi (Datetime.weekday date) (tone_of score)
      = Some (Prediction.remedies result) /\
    build_prediction engine (default aries_info (rashi_base engine !! rashi))
      (Datetime.weekday date) (tone_of score) seed
      (Panchang.nakshatra (Prediction.panchang result))
      (get_moon_phase calc date) = Some (Prediction.prediction result) /\
    Prediction.favorability result = favorability_label score.
Proof.
  pose proof (generate_steps rashi date) as Hsteps. cbv zeta in Hsteps.
  destruct Hsteps as (tithi & nakshatra & wt & seed & score & pred & rem &
    lucky & Ht & Hn & _ & Hw & Hs & _ & Hscore & Hp & Hr & Hl & Hg).
  pose proof (generate_lucky_elements_eq rashi date score seed Hs) as E.
  cbv zeta in E.
  destruct E as (color & number & time & direction & Hc & Hnum & Htime &
    Hdir & E).
  rewrite E in Hl. apply (inj Some) in Hl. subst lucky.
  eexists _, seed, score, number. split; [exact Hg|].
  repeat (split; [done|]). reflexivity.
Qed.

Lemma favorability_score_of_sign (rashi : string) (date : Datetime.date) :
  exists seed,
    date_seed date = Some seed /\
    favorability_score engine rashi date =
      Some ((if Py.contains (Datetime.weekday date)
                  (favorable_days (default aries_info (rashi_base engine !! rashi)))
             then 3 else 0)
            + (seed mod 10 - 5)
            + (if nakshatra_index date mod 3 =? 0 then 1 else 0)).
Proof.
  destruct (date_seed_total date) as (seed & Hs & _).
  destruct (get_nakshatra_total date) as (nakshatra & Hn & Hi).
  exists seed. split; [done|]. unfold favorability_score.
  change (panchang engine) with calc.
  rewrite Hn, rashi_base_aries, Hs. cbn [mbind option_bind].
  by apply favorability_score_of_eq.
Qed.

(** X6: on one date the scores of any two signs differ by 0 or by 3:
    only the weekday term depends on the sign. *)
Theorem scores_differ_by_weekday_term (rashi1 rashi2 : string)
  (date : Datetime.date) :
  exists score1 score2,
    favorability_score engine rashi1 date = Some score1 /\
    favorability_score engine rashi2 date = Some score2 /\
    (score1 = score2 \/ score1 = score2 + 3 \/ score2 = score1 + 3).
Proof.
  destruct (favorability_score_of_sign rashi1 date) as (seed1 & Hs1 & H1).
  destruct (favorability_score_of_sign rashi2 date) as (seed2 & Hs2 & H2).
  assert (seed2 = seed1) as -> by congruence.
  eexists _, _. split; [exact H1|]. split; [exact H2|].
  destruct (Py.contains _ _), (Py.contains _ _); lia.
Qed.

(** X7: on one date any two signs, recognized or not, get the same
    panchang, the same lucky time and the same lucky direction. *)
Theorem sign_independent_fields (rashi1 rashi2 : string)
  (date : Datetime.date) :
  exists result1 result2,
    generate_daily_prediction engine rashi1 date = Some result1 /\
    generate_daily_prediction engine rashi2 date = Some result2 /\
    Prediction.panchang result1 = Prediction.panchang result2 /\
    Prediction.lucky_time result1 = Prediction.lucky_time result2 /\
    Prediction.lucky_direction result1 = Prediction.lucky_direction result2.
Proof.
  destruct (generate_shape rashi1 date) as (r1 & seed1 & sc1 & n1 & Hg1 & Hs1 &
    _ & Ht1 & Hn1 & Hw1 & Hm1 & _ & _ & _ & Htime1 & Hdir1 & _).
  destruct (generate_shape rashi2 date) as (r2 & seed2 & sc2 & n2 & Hg2 & Hs2 &
    _ & Ht2 & Hn2 & Hw2 & Hm2 & _ & _ & _ & Htime2 & Hdir2 & _).
  assert (seed2 = seed1) as -> by congruence.
  exists r1, r2. split; [done|]. split; [done|].
  split; [|split; congruence].
  destruct (Prediction.panchang r1), (Prediction.panchang r2).
  simpl in *. congruence.
Qed.

(** X8: the lucky time and the lucky direction of a result sit at the
    same position of their two lists, so the time slot decides the
    direction. *)
Theorem lucky_time_and_direction_aligned (rashi : string)
  (date : Datetime.date) :
  exists result (i : nat),
    generate_daily_prediction engine rashi date = Some result /\
    time_slots !! i = Some (Prediction.lucky_time result) /\
    directions !! i = Some (Prediction.lucky_direction result).
Proof.
  destruct (generate_shape rashi date) as (r & seed & sc & n & Hg & _ &
    _ & _ & _ & _ & _ & _ & _ & _ & Htime & Hdir & _).
  pose proof (Z.mod_pos_bound seed 5 ltac:(lia)) as Hi.
  rewrite getitem_in_range in Htime by (simpl; lia).
  rewrite getitem_in_range in Hdir by (simpl; lia).
  eauto.
Qed.

(** X9: for a recognized sign the lucky color is one of the colors listed
    for that sign. *)
Theorem lucky_color_of_the_sign (rashi : string) (date : Datetime.date) :
  recognized rashi ->
  exists colors result,
    rashi_colors !! rashi = Some colors /\
    generate_daily_prediction engine rashi date = Some result /\
    Prediction.lucky_color result ∈ colors.
Proof.
  intros Hr.
  assert (Hc : is_Some (rashi_colors !! rashi)).
  { apply elem_of_dom. rewrite rashi_colors_dom. by apply elem_of_list_to_set. }
  destruct Hc as [colors Hc].
  destruct (generate_shape rashi date) as (r & seed & sc & n & Hg & _ &
    _ & _ & _ & _ & _ & Hcolor & _).
  rewrite Hc in Hcolor. cbn [default from_option id] in Hcolor.
  exists colors, r. eauto using getitem_elem_of.
Qed.

Lemma lucky_color_of_the_sign_witness :
  let d := Datetime.mkdate 2024 1 11 eq_refl in
  recognized "ధనుస్సు" /\
  exists colors result,
    rashi_colors !! "ధనుస్సు" = Some colors /\
    generate_daily_prediction engine "ధనుస్సు" d = Some result /\
    Prediction.lucky_color result ∈ colors.
Proof.
  intros d. split; [exact recognized_dhanussu|].
  exact (lucky_color_of_the_sign "ధనుస్సు" d recognized_dhanussu).
Defined.





(** X11: [generate_daily_remedies] fails, whatever the engine, the sign
    and the tone, exactly when the weekday index is outside 0..6. *)
Theorem remedies_fail_iff_weekday_out_of_range
  (self : DynamicPredictionEngine) (rashi : string) (weekday : Z)
  (tone : string) :
  generate_daily_remedies self rashi weekday tone = None
    <-> ~ (0 <= weekday <= 6).
Proof.
  split.
  - intros Hnone Hw.
    destruct (weekday_remedies_total weekday ltac:(lia)) as (c1 & c2 & c3 & Hc).
    by rewrite (generate_daily_remedies_eq _ _ _ _ _ _ _ Hc) in Hnone.
  - intros Hw. unfold generate_daily_remedies.
    replace (weekday_remedies !! weekday) with (@None (list string)); [done|].
    symmetry. apply not_elem_of_list_to_map_1. cbn [fmap list_fmap fst].
    rewrite !elem_of_cons, elem_of_nil. lia.
Qed.

(** X12: a sentence about an area is produced exactly for the three tones
    that have templates; any other tone is a missing key. *)
Theorem area_sentence_iff_known_tone (tone : string) (seed : Z)
  (area : string) :
  is_Some (area_sentence engine tone seed area)
    <-> tone ∈ ["favorable"; "neutral"; "challenging"].
Proof.
  split; [|apply area_sentence_total].
  intros [sentence Hs]. unfold area_sentence in Hs.
  destruct (prediction_templates engine !! tone) as [ts|] eqn:Ht;
    [|discriminate].
  apply elem_of_list_to_map_2 in Ht.
  repeat (apply elem_of_cons in Ht as [Ht|Ht];
          [injection Ht as -> _; apply (bool_decide_unpack _); by vm_compute|]).
  by apply elem_of_nil in Ht.
Qed.

Lemma base_numbers_getitem (i number : Z) :
  0 <= i < 9 -> Py.getitem base_numbers i = Some number -> number = i + 1.
Proof.
  intros Hi Hn. cases_below Hi; subst i; vm_compute in Hn; by injection Hn.
Qed.

(** X13: the lucky number of a result is the digit
    ((day of the month + score) mod 9) + 1 for the score of that sign and
    date. *)
Theorem lucky_number_of_result (rashi : string) (date : Datetime.date) :
  exists result score,
    generate_daily_prediction engine rashi date = Some result /\
    favorability_score engine rashi date = Some score /\
    Prediction.lucky_number result
      = Py.str ((Datetime.day date + score) mod 9 + 1).
Proof.
  destruct (generate_shape rashi date) as (r & seed & sc & n & Hg & _ &
    Hscore & _ & _ & _ & _ & _ & Hn & Hstr & _).
  exists r, sc. split; [done|]. split; [done|]. rewrite Hstr. f_equal.
  apply base_numbers_getitem; [|done]. apply Z.mod_pos_bound. lia.
Qed.

(** ** The text of the prediction *)

Lemma string_app_assoc (s t u : string) : (s +:+ t) +:+ u = s +:+ t +:+ u.
Proof.
  induction s as [|c s IH]; [done|].
  change (String c ((s +:+ t) +:+ u) = String c (s +:+ t +:+ u)).
  by rewrite IH.
Qed.

Lemma prefix_app (p s t : string) :
  String.prefix p s = true -> String.prefix p (s +:+ t) = true.
Proof.
  revert p. induction s as [|c' s IH]; intros p Hp.
  - destruct p; [by destruct t | discriminate].
  - change (String.prefix p (String c' (s +:+ t)) = true).
    destruct p as [|c p]; [reflexivity|].
    cbn [String.prefix] in Hp |- *.
    destruct (ascii_dec c c'); [by apply IH | discriminate].
Qed.

Lemma prefix_join (p first : string) (rest : list string) :
  String.prefix p first = true ->
  String.prefix p (Py.join " " (first :: rest)) = true.
Proof.
  intros Hp. unfold Py.join. destruct rest as [|second rest]; [done|].
  change (String.concat " " (first :: second :: rest))
    with (first +:+ " " +:+ String.concat " " (second :: rest)).
  by apply prefix_app.
Qed.

Lemma join_snoc (first : string) (rest : list string) (s : string) :
  Py.join " " ((first :: rest) ++ [s])
    = Py.join " " (first :: rest) +:+ " " +:+ s.
Proof.
  unfold Py.join. revert first.
  induction rest as [|second rest IH]; intros first; [done|].
  change (String.concat " " ((first :: second :: rest) ++ [s]))
    with (first +:+ " " +:+ String.concat " " ((second :: rest) ++ [s])).
  rewrite IH.
  change (String.concat " " (first :: second :: rest))
    with (first +:+ " " +:+ String.concat " " (second :: rest)).
  by rewrite !string_app_assoc.
Qed.

(** The parts joined by [build_prediction]: the weekday opening first,
    the sentence about the moon, if any, last. *)
Lemma build_prediction_parts (self : DynamicPredictionEngine)
  (info : RashiInfo) (weekday : Z) (tone : string) (seed : Z)
  (nakshatra moon_phase text : string) :
  build_prediction self info weekday tone seed nakshatra moon_phase
    = Some text ->
  exists opening middle,
    weekday_openings !! weekday = Some opening /\
    text = Py.join " "
      ((opening :: middle)
       ++ if Py.str_contains "పూర్తి చంద్రుడు" moon_phase then
            ["పౌర్ణమి యొక్క ప్రభావం మీ భావోద్వేగాలను బలపరుస్తుంది."]
          else if Py.str_contains "అమావాస్య" moon_phase then
            ["అమావాస్య సమయం కొత్త ప్రారంభాలకు శుభం."]
          else []).
Proof.
  unfold build_prediction.
  destruct (weekday_openings !! weekday) as [opening|]; [|discriminate].
  cbn [mbind option_bind].
  destruct (mapM _ _) as [sentences|]; [|discriminate].
  cbn [mbind option_bind]. intros Htext. apply (inj Some) in Htext.
  subst text. exists opening.
  destruct (nakshatra_effects !! nakshatra) as [effect|].
  - exists (sentences
            ++ [nakshatra +:+ " నక్షత్రం " +:+ effect +:+ " తెస్తుంది."]).
    split; [done|].
    destruct (Py.str_contains _ _); [|destruct (Py.str_contains _ _)];
      by rewrite ?app_nil_r.
  - exists sentences. split; [done|].
    destruct (Py.str_contains _ _); [|destruct (Py.str_contains _ _)];
      by rewrite ?app_nil_r.
Qed.

Lemma weekday_tables_agree (weekday : Z) :
  0 <= weekday < 7 ->
  exists label opening c1 c2 c3,
    weekdays_telugu calc !! weekday = Some label /\
    weekday_openings !! weekday = Some opening /\
    weekday_remedies !! weekday = Some [c1; c2; c3] /\
    String.prefix label opening = true /\
    String.prefix label c1 = true.
Proof.
  intros Hw. cases_below Hw; subst weekday;
    do 5 eexists; repeat split; vm_compute; reflexivity.
Qed.

(** X14: in every result the prediction text and the first remedy both
    begin with the weekday name given in the panchang. *)
Theorem weekday_named_in_text_and_remedy (rashi : string)
  (date : Datetime.date) :
  exists result first rest,
    generate_daily_prediction engine rashi date = Some result /\
    Prediction.remedies result = first :: rest /\
    String.prefix (Panchang.weekday (Prediction.panchang result))
                  (Prediction.prediction result) = true /\
    String.prefix (Panchang.weekday (Prediction.panchang result)) first = true.
Proof.
  destruct (generate_shape rashi date) as (r & seed & sc & n & Hg & _ &
    _ & _ & _ & Hw & _ & _ & _ & _ & _ & _ & Hrem & Hpred & _).
  destruct (weekday_tables_agree _ (weekday_range date))
    as (label & opening & c1 & c2 & c3 & Hl & Ho & Hc & Hpo & Hpc).
  unfold get_weekday_telugu in Hw. rewrite Hl in Hw. apply (inj Some) in Hw.
  rewrite (generate_daily_remedies_eq _ _ _ _ _ _ _ Hc) in Hrem.
  apply (inj Some) in Hrem.
  destruct (build_prediction_parts _ _ _ _ _ _ _ _ Hpred)
    as (opening' & middle & Ho' & Htext).
  assert (opening' = opening) as -> by congruence.
  exists r, c1. eexists. split; [done|]. split; [by rewrite <- Hrem|].
  rewrite <- Hw. split; [|done]. rewrite Htext. by apply prefix_join.
Qed.

(** X15: on day 0 of the lunar month the prediction text ends with the
    sentence for the new moon, and on days 7 and 8 with the sentence for
    the full moon. *)
Theorem moon_sentence_closes_text (rashi : string) (date : Datetime.date) :
  lunar_day date = 0 \/ 7 <= lunar_day date <= 8 ->
  exists result before,
    generate_daily_prediction engine rashi date = Some result /\
    Prediction.prediction result =
      before +:+ " " +:+
      (if lunar_day date =? 0 then "అమావాస్య సమయం కొత్త ప్రారంభాలకు శుభం."
       else "పౌర్ణమి యొక్క ప్రభావం మీ భావోద్వేగాలను బలపరుస్తుంది.").
Proof.
  intros Hday.
  destruct (generate_shape rashi date) as (r & seed & sc & n & Hg & _ &
    _ & _ & _ & _ & _ & _ & _ & _ & _ & _ & _ & Hpred & _).
  destruct (build_prediction_parts _ _ _ _ _ _ _ _ Hpred)
    as (opening & middle & _ & Htext).
  exists r, (Py.join " " (opening :: middle)). split; [done|].
  rewrite Htext, get_moon_phase_by_day.
  destruct (Z.eqb_spec (lunar_day date) 0) as [H0|H0].
  - exact (join_snoc _ _ _).
  - destruct (Z.ltb_spec (lunar_day date) 7); [lia|].
    destruct (Z.ltb_spec (lunar_day date) 9); [|lia].
    exact (join_snoc _ _ _).
Qed.

Lemma moon_sentence_closes_text_witness :
  lunar_day reference_date = 0 /\
  exists result before,
    generate_daily_prediction engine "ధనుస్సు" reference_date = Some result /\
    Prediction.prediction result =
      before +:+ " " +:+
      (if lunar_day reference_date =? 0
       then "అమావాస్య సమయం కొత్త ప్రారంభాలకు శుభం."
       else "పౌర్ణమి యొక్క ప్రభావం మీ భావోద్వేగాలను బలపరుస్తుంది.").
Proof.
  assert (H0 : lunar_day reference_date = 0) by reflexivity.
  split; [exact H0|].
  exact (moon_sentence_closes_text "ధనుస్సు" reference_date (or_introl H0)).
Defined.

(** ** More on the sign of a birth date *)

(** X16: the sign computed from a birth date is always one of the twelve
    keys of [rashi_mapping]. *)
Theorem calculate_rashi_is_recognized (dob : Datetime.date) :
  recognized (calculate_rashi_from_dob dob).
Proof.
  unfold calculate_rashi_from_dob. cbv zeta.
  repeat case_match; apply (bool_decide_unpack _); by vm_compute.
Qed.

Lemma days_in_month_le_31 (y m : Z) :
  1 <= m <= 12 -> 28 <= Datetime.days_in_month y m <= 31.
Proof.
  intros Hm. unfold Datetime.days_in_month. assert (Hm' : 0 <= m < 13) by lia.
  cases_below Hm'; subst m; try lia;
    destruct (Datetime.is_leap y); simpl; lia.
Qed.

(** X17: from one day to the next the sign either stays or moves to the
    next sign in the order of [rashi_mapping]: the date ranges tile the
    year in zodiac order. *)
Theorem zodiac_order_day_by_day (d1 d2 : Datetime.date) :
  Datetime.days_between d2 d1 = 1 ->
  calculate_rashi_from_dob d2 = calculate_rashi_from_dob d1 \/
  next_sign (calculate_rashi_from_dob d1) = Some (calculate_rashi_from_dob d2).
Proof.
  unfold Datetime.days_between. intros Hnext.
  pose proof (date_fields_range d1) as (_ & Hm1 & Hd1).
  pose proof (days_in_month_le_31 (Datetime.year d1) _ Hm1) as Hdim.
  destruct (next_day_fields d1 d2 ltac:(lia))
    as [(Hm & Hd) | [(Hm & Hd & Hlast) | (Hm & Hd & Hm' & Hd')]];
    unfold calculate_rashi_from_dob; cbv zeta.
  - rewrite Hm, Hd.
    assert (Hmr : 0 <= Datetime.month d1 < 13) by lia.
    assert (Hdr : 0 <= Datetime.day d1 < 32) by lia.
    revert Hmr Hdr. generalize (Datetime.month d1) (Datetime.day d1).
    clear. intros m dd Hmr Hdr.
    cases_below Hmr; subst m; cases_below Hdr; subst dd;
      vm_compute; first [ left; reflexivity | right; reflexivity ].
  - rewrite Hm, Hd, Hlast. unfold Datetime.days_in_month.
    pose proof (date_fields_range d2) as (_ & Hm2 & _).
    assert (Hmr : 0 <= Datetime.month d1 < 12) by lia.
    assert (Hm0 : Datetime.month d1 <> 0) by lia.
    revert Hmr Hm0.
    generalize (Datetime.month d1) (Datetime.is_leap (Datetime.year d1)).
    clear. intros m leap Hmr Hm0.
    cases_below Hmr; subst m; try done; destruct leap;
      vm_compute; first [ left; reflexivity | right; reflexivity ].
  - rewrite Hm, Hd, Hm', Hd'. left. reflexivity.
Qed.

Lemma zodiac_order_day_by_day_witness :
  let d1 := Datetime.mkdate 2024 4 19 eq_refl in
  let d2 := Datetime.mkdate 2024 4 20 eq_refl in
  Datetime.days_between d2 d1 = 1 /\
  (calculate_rashi_from_dob d2 = calculate_rashi_from_dob d1 \/
   next_sign (calculate_rashi_from_dob d1)
     = Some (calculate_rashi_from_dob d2)).
Proof.
  intros d1 d2.
  assert (H1 : Datetime.days_between d2 d1 = 1) by reflexivity.
  split; [exact H1|]. exact (zodiac_order_day_by_day d1 d2 H1).
Defined.

(** ** The batch *)

Section MailerProperties.

Context {World : Type}.
Variable printable : Json.t -> bool.
Variable html_head :
  Json.t -> string -> Datetime.date -> Prediction.t -> string.
Variable html_tail : string.
Variable strftime : string -> Datetime.date -> string.
Variable send_email :
  string -> string -> Json.t -> string -> string -> World -> bool * World.

Local Abbreviation body := (generate_email_body html_head html_tail).
Local Abbreviation try_one :=
  (try_user printable html_head html_tail strftime send_email).
Local Abbreviation loop :=
  (send_loop printable html_head html_tail strftime send_email).
Local Abbreviation send :=
  (send_daily_horoscopes printable html_head html_tail strftime send_email).

(** The email of an entry, or the text the handlers quote when it has
    none, can be written to the standard output. *)
Local Abbreviation email_writable fields :=
  (printable (default (Json.JStr "unknown") (fields !! "email")) = true).

Implicit Types (self : System.t) (today : Datetime.date)
  (sender password : string) (users : list Json.t) (w : World).

Lemma send_loop_shift self today sender password users (count : Z) w :
  loop self today sender password users count w =
    match loop self today sender password users 0 w with
    | (inr n, w') => (inr (count + n), w')
    | (inl e, w') => (inl e, w')
    end.
Proof.
  revert count w. induction users as [|user rest IH]; intros count w.
  - cbn [send_loop]. f_equal. f_equal. lia.
  - cbn [send_loop].
    destruct (try_one self today sender password user w)
      as [e|[sent w']].
    + destruct (handle printable user); [done|]. apply IH.
    + rewrite (IH (if sent then count + 1 else count)).
      rewrite (IH (if sent then 0 + 1 else 0)).
      destruct (loop self today sender password rest 0 w') as [[e|n] w''];
        [done|]. destruct sent; f_equal; f_equal; lia.
Qed.

Lemma send_loop_app self today sender password users1 users2 (count : Z) w :
  loop self today sender password (users1 ++ users2) count w =
    match loop self today sender password users1 count w with
    | (inr count', w') => loop self today sender password users2 count' w'
    | (inl e, w') => (inl e, w')
    end.
Proof.
  revert count w. induction users1 as [|user rest IH]; intros count w; [done|].
  cbn [app send_loop].
  destruct (try_one self today sender password user w) as [e|[sent w']].
  - destruct (handle printable user); [done|]. apply IH.
  - apply IH.
Qed.

(** X18: a batch can be split in two: the second part starts from the
    world the first part left, the counts add up, and an exception that
    leaves the first part keeps the second from running. *)
Theorem send_daily_horoscopes_app self users1 users2 sender password today w :
  send_daily_horoscopes printable html_head html_tail strftime send_email
    self (users1 ++ users2) sender password today w =
    match send_daily_horoscopes printable html_head html_tail strftime
            send_email self users1 sender password today w with
    | (inl e, w1) => (inl e, w1)
    | (inr count1, w1) =>
        match send_daily_horoscopes printable html_head html_tail strftime
                send_email self users2 sender password today w1 with
        | (inl e, w2) => (inl e, w2)
        | (inr count2, w2) => (inr (count1 + count2), w2)
        end
    end.
Proof.
  unfold send_daily_horoscopes. rewrite send_loop_app.
  destruct (loop self today sender password users1 0 w) as [[e|count1] w1];
    [done|].
  apply send_loop_shift.
Qed.

Lemma handle_object (fields : gmap string Json.t) :
  email_writable fields -> handle printable (Json.JObj fields) = inr tt.
Proof.
  intros Hw. unfold handle, print. cbn [Json.get and_then forallb].
  by rewrite Hw.
Qed.

Lemma send_loop_objects self today sender password
  (dicts : list (gmap string Json.t)) (count : Z) w :
  Forall (fun fields => email_writable fields) dicts ->
  exists n w',
    loop self today sender password (Json.JObj <$> dicts) count w
      = (inr n, w') /\
    count <= n <= count + Z.of_nat (length dicts).
Proof.
  intros Hall. revert count w.
  induction Hall as [|fields rest Hw Hall IH]; intros count w.
  - exists count, w. split; [done|]. simpl. lia.
  - cbn [fmap list_fmap send_loop].
    destruct (try_one self today sender password (Json.JObj fields) w)
      as [e|[sent w']].
    + rewrite (handle_object fields Hw).
      destruct (IH count w) as (n & w' & Hl & Hn).
      exists n, w'. split; [exact Hl|]. simpl. lia.
    + destruct (IH (if sent then count + 1 else count) w')
        as (n & w'' & Hl & Hn).
      exists n, w''. split; [exact Hl|]. destruct sent; simpl; lia.
Qed.

(** X19: when every entry of the user list is a JSON object whose email
    (or the text the handlers quote when it has none) can be written to
    the standard output, the batch returns a count, whatever else the
    fields hold and whatever the engine and the mail server do, and the
    count is between 0 and the number of entries. *)
Theorem send_daily_horoscopes_objects self
  (dicts : list (gmap string Json.t)) sender password today w :
  Forall (fun fields =>
            printable (default (Json.JStr "unknown") (fields !! "email"))
              = true) dicts ->
  exists count w',
    send self (Json.JObj <$> dicts) sender password today w
      = (inr count, w') /\
    0 <= count <= Z.of_nat (length dicts).
Proof. intros Hall. by apply send_loop_objects. Qed.

(** X20: after entries that are JSON objects with a writable email, an
    entry that is not a JSON object stops the batch with an
    [AttributeError] raised inside the handler: the entries after it are
    never looked at, and the count of the mails already sent is lost. *)
Theorem send_daily_horoscopes_aborts self
  (before : list (gmap string Json.t)) (bad : Json.t) sender password today w :
  Json.is_object bad = false ->
  Forall (fun fields =>
            printable (default (Json.JStr "unknown") (fields !! "email"))
              = true) before ->
  exists count1 w1,
    send self (Json.JObj <$> before) sender password today w
      = (inr count1, w1) /\
    forall after : list Json.t,
      send self ((Json.JObj <$> before) ++ bad :: after) sender password
           today w
        = (inl AttributeError, w1).
Proof.
  intros Hbad Hall.
  destruct (send_daily_horoscopes_objects self before sender password today w
              Hall) as (count1 & w1 & Hsend & _).
  exists count1, w1. split; [done|]. intros after.
  rewrite send_daily_horoscopes_app, Hsend.
  unfold send_daily_horoscopes. cbn [send_loop].
  destruct bad; try discriminate; reflexivity.
Qed.

Lemma try_user_skips self today sender password
  (fields : gmap string Json.t) w :
  fields !! "name" = None \/ fields !! "email" = None \/
  (forall s, fields !! "rashi" = Some (Json.JStr s) ->
             s ∉ (System.rashi_mapping self).*1) ->
  (exists e, try_one self today sender password (Json.JObj fields) w = inl e)
  \/ try_one self today sender password (Json.JObj fields) w = inr (false, w).
Proof.
  intros Hskip. unfold try_user. cbn [Json.subscript].
  destruct (fields !! "name") as [name|]; [|left; by eexists].
  cbn [and_then].
  destruct (fields !! "email") as [email|]; [|left; by eexists].
  cbn [and_then].
  destruct (fields !! "rashi") as [rashi|]; [|left; by eexists].
  cbn [and_then].
  destruct Hskip as [?|[?|Hskip]]; [done..|].
  assert (Hnone : forall v,
    and_then (print printable [v; name]) (fun _ => inr (false, w))
      = inr (false, w) \/
    exists e, and_then (print printable [v; name])
                (fun _ : unit => @inr exn (bool * World) (false, w)) = inl e).
  { intros v. destruct (print printable [v; name]) as [e|[]];
      [right; by eexists | by left]. }
  destruct rashi as [| | | |s| |]; cbn [Json.find_key and_then];
    try (destruct (Hnone Json.JNull) as [->|[e ->]];
         [by right | left; by eexists]);
    try (left; by eexists).
  - destruct (Hnone (Json.JBool b)) as [->|[e ->]];
      [by right | left; by eexists].
  - destruct (Hnone (Json.JInt n)) as [->|[e ->]];
      [by right | left; by eexists].
  - destruct (Hnone (Json.JFloat x)) as [->|[e ->]];
      [by right | left; by eexists].
  - rewrite bool_decide_eq_false_2 by (by apply Hskip).
    destruct (Hnone (Json.JStr s)) as [->|[e ->]];
      [by right | left; by eexists].
Qed.

(** X21: an object whose email (or the text the handlers quote when it
    has none) can be written to the standard output, and which has no
    name or no email, or whose rashi is absent, is not a string or is not
    a key of [rashi_mapping], is passed over: the batch behaves as if the
    entry were not in the list, so no mail is sent for it. *)
Theorem send_daily_horoscopes_skips self (before after : list Json.t)
  (fields : gmap string Json.t) sender password today w :
  fields !! "name" = None \/ fields !! "email" = None \/
  (forall s, fields !! "rashi" = Some (Json.JStr s) ->
             s ∉ (System.rashi_mapping self).*1) ->
  printable (default (Json.JStr "unknown") (fields !! "email")) = true ->
  send self (before ++ Json.JObj fields :: after) sender password today w
    = send self (before ++ after) sender password today w.
Proof.
  intros Hskip Hw. unfold send_daily_horoscopes. rewrite !send_loop_app.
  destruct (loop self today sender password before 0 w) as [[e|count1] w1];
    [done|].
  cbn [send_loop].
  destruct (try_user_skips self today sender password fields w1 Hskip)
    as [[e ->] | ->]; [|reflexivity].
  by rewrite (handle_object fields Hw).
Qed.

Lemma generate_email_body_total (name : Json.t) (rashi : string)
  (date : Datetime.date) :
  exists result,
    generate_daily_prediction engine rashi date = Some result /\
    body TeluguHoroscopeSystem_init name rashi date =
      Some (fold_left
              (fun html remedy => html +:+ "<li>" +:+ remedy +:+ "</li>")
              (Prediction.remedies result)
              (html_head name rashi date result) +:+ html_tail).
Proof.
  destruct (generate_shape rashi date) as (r & ? & ? & ? & Hg & _).
  exists r. split; [done|]. unfold generate_email_body.
  change (System.prediction_engine TeluguHoroscopeSystem_init) with engine.
  by rewrite Hg.
Qed.

(** X22: for an object with a name, an email and a recognized rashi,
    whose name and rashi can be written to the standard output, the batch
    renders the mail from the prediction of that very sign and calls
    [send_email] once, with the sign in the subject; the entry counts
    exactly when [send_email] answers [True]. *)
Theorem send_daily_horoscopes_delivers (fields : gmap string Json.t)
  (name email : Json.t) (rashi : string) (rest : list Json.t)
  sender password today w :
  fields !! "name" = Some name ->
  fields !! "email" = Some email ->
  fields !! "rashi" = Some (Json.JStr rashi) ->
  recognized rashi ->
  printable name = true ->
  printable (Json.JStr rashi) = true ->
  exists html,
    body TeluguHoroscopeSystem_init name rashi today = Some html /\
    send TeluguHoroscopeSystem_init (Json.JObj fields :: rest) sender
         password today w =
      let subject :=
        "🌟 " +:+ strftime "%d-%m-%Y" today
        +:+ " - రోజువారీ రాశి ఫలాలు - " +:+ rashi in
      let '(sent, w1) := send_email sender password email subject html w in
      match send TeluguHoroscopeSystem_init rest sender password today w1 with
      | (inl e, w2) => (inl e, w2)
      | (inr count, w2) => (inr ((if sent then 1 else 0) + count), w2)
      end.
Proof.
  intros Hname Hemail Hrashi Hrec Hpn Hpr.
  destruct (generate_email_body_total name rashi today) as (r & _ & Hbody).
  eexists. split; [exact Hbody|].
  unfold send_daily_horoscopes. cbn [send_loop].
  unfold try_user. cbn [Json.subscript].
  rewrite Hname, Hemail, Hrashi. cbn [and_then Json.find_key].
  change (System.rashi_mapping TeluguHoroscopeSystem_init) with rashi_mapping.
  rewrite bool_decide_eq_true_2 by exact Hrec.
  unfold print. cbn [forallb]. rewrite Hpn, Hpr. cbn [andb and_then].
  rewrite Hbody. cbv zeta.
  destruct (send_email _ _ _ _ _ _) as [sent w1].
  rewrite send_loop_shift.
  destruct (loop _ _ _ _ rest 0 w1) as [[e|n] w2]; [done|].
  destruct sent; f_equal; f_equal; lia.
Qed.

Lemma fold_left_items (remedies : list string) (html rest : string) :
  fold_left (fun html remedy => html +:+ "<li>" +:+ remedy +:+ "</li>")
            remedies html +:+ rest
  = html +:+
    fold_right (fun remedy rest => "<li>" +:+ remedy +:+ "</li>" +:+ rest)
               rest remedies.
Proof.
  revert html. induction remedies as [|remedy remedies IH]; intros html;
    [done|].
  cbn [fold_left fold_right]. rewrite IH. by rewrite !string_app_assoc.
Qed.

(** X23: for every name, sign and date the mail body is rendered: the
    static head, then one list item per remedy of the prediction, in
    their order and between two and four of them, then the static tail. *)
Theorem generate_email_body_items (name : Json.t) (rashi : string)
  (date : Datetime.date) :
  exists result,
    generate_daily_prediction engine rashi date = Some result /\
    (2 <= length (Prediction.remedies result) <= 4)%nat /\
    body TeluguHoroscopeSystem_init name rashi date =
      Some (html_head name rashi date result +:+
            fold_right
              (fun remedy rest => "<li>" +:+ remedy +:+ "</li>" +:+ rest)
              html_tail (Prediction.remedies result)).
Proof.
  destruct (generate_email_body_total name rashi date) as (r & Hg & Hbody).
  exists r. split; [done|]. split.
  - destruct (generate_shape rashi date) as (r' & ? & ? & ? & Hg' & _ & _ &
      _ & _ & _ & _ & _ & _ & _ & _ & _ & Hrem & _).
    assert (r' = r) as -> by congruence.
    destruct (weekday_remedies_total _ (weekday_range date))
      as (c1 & c2 & c3 & Hc).
    rewrite (generate_daily_remedies_eq _ _ _ _ _ _ _ Hc) in Hrem.
    apply (inj Some) in Hrem. rewrite <- Hrem.
    destruct (rashi_remedies !! rashi); case_decide; simpl; lia.
  - rewrite Hbody. f_equal. apply fold_left_items.
Qed.

(** X25: when the [try] fails on a missing name or a missing rashi and
    the email of the entry cannot be written to the standard output, the
    message of the handler raises [UnicodeEncodeError], which leaves the
    function: nothing is sent for this entry or for any entry after it. *)
Theorem send_daily_horoscopes_unwritable_email self
  (fields : gmap string Json.t) (email : Json.t) (rest : list Json.t)
  sender password today w :
  fields !! "name" = None \/ fields !! "rashi" = None ->
  fields !! "email" = Some email ->
  printable email = false ->
  send self (Json.JObj fields :: rest) sender password today w
    = (inl UnicodeEncodeError, w).
Proof.
  intros Hmiss Hemail Hp. unfold send_daily_horoscopes. cbn [send_loop].
  assert (Htry : exists e,
    try_one self today sender password (Json.JObj fields) w = inl e).
  { unfold try_user. cbn [Json.subscript]. rewrite Hemail.
    destruct (fields !! "name") as [name|]; [|by eexists].
    destruct Hmiss as [?|Hr]; [done|]. rewrite Hr. by eexists. }
  destruct Htry as [e ->].
  unfold handle, print. cbn [Json.get and_then forallb].
  rewrite Hemail. cbn [default from_option id]. by rewrite Hp.
Qed.


End MailerProperties.

Lemma send_daily_horoscopes_objects_witness :
  let dicts : list (gmap string Json.t) :=
    [ {[ "email" := Json.JStr "ravi@example.org";
         "rashi" := Json.JStr "ధనుస్సు" ]};
      {[ "name" := Json.JStr "Sita" ]} ] in
  Forall (fun fields =>
            utf8_stdout (default (Json.JStr "unknown") (fields !! "email"))
              = true) dicts /\
  exists count w',
    send_daily_horoscopes utf8_stdout plain_head "</ul>" simple_strftime
      outbox_send TeluguHoroscopeSystem_init (Json.JObj <$> dicts)
      "from@example.org" "secret" reference_date []
    = (inr count, w') /\
    0 <= count <= Z.of_nat (length dicts).
Proof.
  intros dicts.
  assert (Hall : Forall (fun fields =>
            utf8_stdout (default (Json.JStr "unknown") (fields !! "email"))
              = true) dicts)
    by (repeat constructor).
  split; [exact Hall|].
  exact (send_daily_horoscopes_objects utf8_stdout plain_head "</ul>"
           simple_strftime outbox_send TeluguHoroscopeSystem_init dicts
           "from@example.org" "secret" reference_date [] Hall).
Defined.

Lemma send_daily_horoscopes_aborts_witness :
  let before : list (gmap string Json.t) :=
    [ {[ "name" := Json.JStr "Sita" ]} ] in
  Json.is_object (Json.JStr "someone@example.org") = false /\
  send_daily_horoscopes utf8_stdout plain_head "</ul>" simple_strftime
    outbox_send TeluguHoroscopeSystem_init
    ((Json.JObj <$> before) ++ [Json.JStr "someone@example.org"])
    "from@example.org" "secret" reference_date []
  = (inl AttributeError, []).
Proof.
  intros before.
  assert (Hbad : Json.is_object (Json.JStr "someone@example.org") = false)
    by reflexivity.
  assert (Hall : Forall (fun fields =>
            utf8_stdout (default (Json.JStr "unknown") (fields !! "email"))
              = true) before)
    by (repeat constructor).
  split; [exact Hbad|].
  destruct (send_daily_horoscopes_aborts utf8_stdout plain_head "</ul>"
              simple_strftime outbox_send TeluguHoroscopeSystem_init before _
              "from@example.org" "secret" reference_date [] Hbad Hall)
    as (count1 & w1 & Hsend & Habort).
  rewrite (Habort []). f_equal.
  assert (Hconcrete :
    send_daily_horoscopes utf8_stdout plain_head "</ul>" simple_strftime
      outbox_send TeluguHoroscopeSystem_init (Json.JObj <$> before)
      "from@example.org" "secret" reference_date []
    = (inr 0, [])) by (vm_compute; reflexivity).
  rewrite Hconcrete in Hsend. by injection Hsend.
Defined.

Lemma send_daily_horoscopes_skips_witness :
  let fields : gmap string Json.t :=
    {[ "name" := Json.JStr "Ravi"; "email" := Json.JStr "ravi@example.org";
       "rashi" := Json.JStr "Aries" ]} in
  (forall s, fields !! "rashi" = Some (Json.JStr s) ->
             s ∉ (System.rashi_mapping TeluguHoroscopeSystem_init).*1) /\
  utf8_stdout (default (Json.JStr "unknown") (fields !! "email")) = true /\
  send_daily_horoscopes utf8_stdout plain_head "</ul>" simple_strftime
    outbox_send TeluguHoroscopeSystem_init ([] ++ Json.JObj fields :: [])
    "from@example.org" "secret" reference_date []
  = send_daily_horoscopes utf8_stdout plain_head "</ul>" simple_strftime
      outbox_send TeluguHoroscopeSystem_init ([] ++ []) "from@example.org"
      "secret" reference_date [].
Proof.
  intros fields.
  assert (Hskip : forall s, fields !! "rashi" = Some (Json.JStr s) ->
            s ∉ (System.rashi_mapping TeluguHoroscopeSystem_init).*1).
  { intros s Hs. vm_compute in Hs. injection Hs as <-.
    exact unrecognized_english_name. }
  assert (Hw : utf8_stdout
                 (default (Json.JStr "unknown") (fields !! "email")) = true)
    by (vm_compute; reflexivity).
  split; [exact Hskip|]. split; [exact Hw|].
  exact (send_daily_horoscopes_skips utf8_stdout plain_head "</ul>"
           simple_strftime outbox_send TeluguHoroscopeSystem_init [] [] fields
           "from@example.org" "secret" reference_date []
           (or_intror (or_intror Hskip)) Hw).
Defined.

Lemma send_daily_horoscopes_delivers_witness :
  let fields : gmap string Json.t :=
    {[ "name" := Json.JStr "Ravi"; "email" := Json.JStr "ravi@example.org";
       "rashi" := Json.JStr "ధనుస్సు" ]} in
  recognized "ధనుస్సు" /\
  utf8_stdout (Json.JStr "Ravi") = true /\
  utf8_stdout (Json.JStr "ధనుస్సు") = true /\
  exists html,
    generate_email_body plain_head "</ul>" TeluguHoroscopeSystem_init
      (Json.JStr "Ravi") "ధనుస్సు" reference_date = Some html /\
    send_daily_horoscopes utf8_stdout plain_head "</ul>" simple_strftime
      outbox_send TeluguHoroscopeSystem_init [Json.JObj fields]
      "from@example.org" "secret" reference_date []
    = (inr (1 + 0), ["🌟 11-01-2024 - రోజువారీ రాశి ఫలాలు - ధనుస్సు"]).
Proof.
  intros fields. split; [exact recognized_dhanussu|].
  assert (Hpn : utf8_stdout (Json.JStr "Ravi") = true) by reflexivity.
  assert (Hpr : utf8_stdout (Json.JStr "ధనుస్సు") = true) by reflexivity.
  split; [exact Hpn|]. split; [exact Hpr|].
  destruct (send_daily_horoscopes_delivers utf8_stdout plain_head "</ul>"
              simple_strftime outbox_send fields (Json.JStr "Ravi")
              (Json.JStr "ravi@example.org") "ధనుస్సు" []
              "from@example.org" "secret" reference_date []
              ltac:(vm_compute; reflexivity) ltac:(vm_compute; reflexivity)
              ltac:(vm_compute; reflexivity) recognized_dhanussu Hpn Hpr)
    as (html & Hbody & Hsend).
  exists html. split; [exact Hbody|]. rewrite Hsend. reflexivity.
Defined.

Lemma send_daily_horoscopes_unwritable_email_witness :
  let fields : gmap string Json.t :=
    {[ "email" := Json.JStr lone_surrogate;
       "rashi" := Json.JStr "ధనుస్సు" ]} in
  fields !! "name" = None /\
  utf8_stdout (Json.JStr lone_surrogate) = false /\
  send_daily_horoscopes utf8_stdout plain_head "</ul>" simple_strftime
    outbox_send TeluguHoroscopeSystem_init [Json.JObj fields]
    "from@example.org" "secret" reference_date []
  = (inl UnicodeEncodeError, []).
Proof.
  intros fields.
  assert (Hname : fields !! "name" = None) by (vm_compute; reflexivity).
  assert (Hp : utf8_stdout (Json.JStr lone_surrogate) = false) by reflexivity.
  split; [exact Hname|]. split; [exact Hp|].
  exact (send_daily_horoscopes_unwritable_email utf8_stdout plain_head "</ul>"
           simple_strftime outbox_send TeluguHoroscopeSystem_init fields
           (Json.JStr lone_surrogate) [] "from@example.org" "secret"
           reference_date [] (or_introl Hname)
           ltac:(vm_compute; reflexivity) Hp).
Defined.


Example batch_without_mail_for_unwritable_name :
  let fields : gmap string Json.t :=
    {[ "name" := Json.JStr lone_surrogate;
       "email" := Json.JStr "ravi@example.org";
       "rashi" := Json.JStr "ధనుస్సు" ]} in
  send_daily_horoscopes utf8_stdout plain_head "</ul>" simple_strftime
    outbox_send TeluguHoroscopeSystem_init [Json.JObj fields]
    "from@example.org" "secret" reference_date []
  = (inr 0, []).
Proof. vm_compute. reflexivity. Qed.

(** ** The tables of signs *)

(** X24: the signs the batch accepts are exactly the signs that have
    characteristics and exactly the signs that have colors, and every
    sign with a remedy of its own is one of them: for a sign the batch
    accepts, the engine never uses a default. *)
Theorem sign_tables_agree (rashi : string) :
  (recognized rashi <-> is_Some (rashi_base engine !! rashi)) /\
  (recognized rashi <-> is_Some (rashi_colors !! rashi)) /\
  (rashi_remedies !! rashi = None \/ recognized rashi).
Proof.
  split; [apply recognized_rashi_base|]. split.
  - rewrite <- elem_of_dom, rashi_colors_dom, elem_of_list_to_set. done.
  - destruct (decide (recognized rashi)) as [Hr|Hr]; [by right|].
    left. by apply unrecognized_rashi_remedies.
Qed.
